(** * Tractometry ecosystem notebooks: a shallow embedding

    The repository is a Jupyter book of three tutorial notebooks that glue
    calls into pyAFQ, dipy, nibabel, FURY and plotly:

    - the visualisation notebook ("Visualizing AFQ derivatives"),
    - the SLF notebook ("How to add new bundles into pyAFQ"),
    - the RecoBundles notebook ("Using RecoBundles for tract delineation").

    Every code cell is transcribed statement by statement into a state monad
    over a [world]: the disk, the heap of library-owned objects, NumPy's
    global random generator and the chronological log of library calls.
    The libraries themselves are external: what they compute is kept
    symbolic ([PRet]), and what the notebooks cannot determine about them
    (paths returned by fetchers, files a download holds, array shapes, the
    generator) is a field of the environment [Env]. *)

From Stdlib Require Import ZArith String Ascii List.
From stdpp Require Import base option list strings gmap fin_maps.

Set Warnings "-register-all".
Open Scope string_scope.
Open Scope Z_scope.
Open Scope list_scope.

(** ** Library API surface used by the notebooks *)

Inductive api :=
  (* AFQ.data.fetch *)
  | afd_fetch_hbn_preproc | afd_fetch_hbn_afq | afd_read_templates
  (* nibabel, dipy.io *)
  | nib_load | get_fdata | load_trk
  (* dipy / numpy coordinate and array transforms *)
  | to_rasmm | to_vox | transform_streamlines | np_linalg_inv | np_eye
  | set_number_of_points | np_asarray | np_median | afq_profile | resample
  (* fury.actor and vtk properties *)
  | actor_line | GetProperty | SetRenderLinesAsTubes | SetLineWidth
  | actor_slicer | display_extent | slicer_copy | actor_contour_from_roi
  | create_colormap
  (* fury.window *)
  | window_Scene | scene_add | scene_clear | scene_set_camera | window_record
  (* AFQ.viz.utils.PanelFigure *)
  | PanelFigure | add_img | format_and_save_figure
  (* numpy.random *)
  | np_random_seed
  (* AFQ.api, AFQ.definitions *)
  | abd_BundleDict | abd_reco_bd | ImageFile | RoiImage
  | GroupAFQ | export | group_montage
  (* display *)
  | IPython_Image | plotly_io_show.

Global Instance api_eq_dec : EqDecision api.
Proof. solve_decision. Defined.

(** Coordinate spaces of a dipy StatefulTractogram. *)
Inductive Space := RASMM | VOX | VOXMM.

Global Instance Space_eq_dec : EqDecision Space.
Proof. solve_decision. Defined.

(** ** Python values

    Numbers and strings are concrete; a value computed by a library is the
    symbolic term [PRet f args kwargs]; library objects with identity live
    on the heap and are denoted by [PObj]. Float literals keep their
    source text. *)

Inductive pyval :=
  | PNone
  | PBool (b : bool)
  | PInt (n : Z)
  | PFloat (lit : string)
  | PStr (s : string)
  | PList (xs : list pyval)
  | PTuple (xs : list pyval)
  | PDict (kvs : list (string * pyval))
  | PName (qualified : string)                (* an imported module-level name *)
  | PAttr (v : pyval) (name : string)         (* v.name *)
  | PItem (v : pyval) (idx : pyval)           (* v[idx] *)
  | PExpr (op : string) (operands : list pyval)
  | PStreamlines (trk : string) (sp : Space)  (* sft.streamlines, in the space held when read *)
  | PObj (r : nat)
  | PRet (f : api) (args : list pyval) (kwargs : list (string * pyval)).

Abbreviation kwargs_t := (list (string * pyval)).

Record event := Ev { ev_fn : api; ev_args : list pyval; ev_kwargs : kwargs_t }.

(** numpy arrays whose shape the notebooks inspect (three-dimensional volumes) *)
Record ndarray := NdArray { arr_val : pyval; arr_shape : Z * Z * Z }.

(** [data.shape[0]], [data.shape[1]], [data.shape[2]] *)
Definition shape0 (data : ndarray) : Z := (arr_shape data).1.1.
Definition shape1 (data : ndarray) : Z := (arr_shape data).1.2.
Definition shape2 (data : ndarray) : Z := (arr_shape data).2.

(** vtk display extent (x1, x2, y1, y2, z1, z2) *)
Record extent_t := Extent { ex_x1 : Z; ex_x2 : Z; ex_y1 : Z; ex_y2 : Z; ex_z1 : Z; ex_z2 : Z }.

Global Instance extent_eq_dec : EqDecision extent_t.
Proof. solve_decision. Defined.

(** ** Library-owned objects *)

Record actor_t := Actor {
  made_by : event;                     (* the constructor call *)
  property : gmap string pyval;        (* vtkProperty, by setter name without "Set" *)
  extent : option extent_t             (* display extent of a slicer; None: library default *)
}.

Record scene_t := Scene {
  sc_actors : list nat;
  sc_camera : option (pyval * pyval * pyval)   (* position, focal_point, view_up *)
}.

Inductive content :=
  | Dataset (origin : api) (subjects : list string)
  | Derived (what : string) (config : kwargs_t) (randomness : list Z)
  | Rendering (actors : list actor_t) (camera : option (pyval * pyval * pyval)) (size : Z * Z)
  | Montage (panels : list (option content * Z * Z)).

Inductive obj :=
  | ONifti (src : pyval)
  | OTractogram (trk : string) (reference : nat) (sp : Space)
  | OActor (a : actor_t)
  | OScene (s : scene_t)
  | OPanelFigure (dims : list Z) (panels : list (option content * Z * Z))
  | OGroupAFQ (config : kwargs_t).

(** ** The world a notebook runs in *)

Record world := World {
  disk : gmap string content;   (* persistent files, by path *)
  heap : list obj;              (* library objects, by reference *)
  np_random : Z;                (* state of numpy's global generator *)
  drawn : list Z;               (* values drawn from it so far *)
  log : list event              (* library calls, oldest first *)
}.

Definition set_disk (f : gmap string content → gmap string content) (w : world) : world :=
  World (f (disk w)) (heap w) (np_random w) (drawn w) (log w).
Definition set_heap (f : list obj → list obj) (w : world) : world :=
  World (disk w) (f (heap w)) (np_random w) (drawn w) (log w).
Definition set_log (f : list event → list event) (w : world) : world :=
  World (disk w) (heap w) (np_random w) (drawn w) (f (log w)).

(** A fresh kernel: nothing allocated, nothing called yet. *)
Definition fresh_kernel (d : gmap string content) (seed0 : Z) : world :=
  World d [] seed0 [] [].

(** ** State monad *)

Definition M (A : Type) : Type := world → A * world.

Global Instance M_ret : MRet M := λ A a w, (a, w).
Global Instance M_bind : MBind M := λ A B f m w, let '(a, w') := m w in f a w'.

Definition exec {A} (m : M A) (w : world) : world := (m w).2.
Definition eval {A} (m : M A) (w : world) : A := (m w).1.

Definition get_world : M world := λ w, (w, w).
Definition modify (f : world → world) : M unit := λ w, (tt, f w).

(** Python [for x in xs: body] *)
Fixpoint for_each {A} (xs : list A) (body : A → M unit) : M unit :=
  match xs with
  | [] => mret tt
  | x :: xs' => body x ;; for_each xs' body
  end.

(** ** os.path *)

Definition startswith_sep (s : string) : bool :=
  match s with String c _ => if decide (c = "/"%char) then true else false | EmptyString => false end.

Fixpoint endswith_sep (s : string) : bool :=
  match s with
  | EmptyString => false
  | String c EmptyString => if decide (c = "/"%char) then true else false
  | String _ rest => endswith_sep rest
  end.

(** posixpath.join for one more component *)
Definition op_join (path b : string) : string :=
  if startswith_sep b then b
  else if (if decide (path = "") then true else endswith_sep path) then path +:+ b
  else path +:+ "/" +:+ b.

(** ** Files *)

Definition file_exists (p : string) (d : gmap string content) : bool :=
  bool_decide (is_Some (d !! p)).

Definition read_file (p : string) (d : gmap string content) : option content := d !! p.

Definition write_file (p : string) (c : content) (d : gmap string content)
    : gmap string content := <[p := c]> d.

Definition write_all (paths : list string) (c : content) (d : gmap string content)
    : gmap string content :=
  foldr (λ p acc, write_file p c acc) d paths.

(** files already on disk are kept, the others are added *)
Definition add_missing (files : list (string * content)) (d : gmap string content)
    : gmap string content := d ∪ list_to_map files.

Definition op_exists (p : string) : M bool :=
  λ w, (file_exists p (disk w), w).

(** ** Primitive forms of a library call *)

Definition record_call (f : api) (args : list pyval) (kw : kwargs_t) : M unit :=
  modify (set_log (λ l, l ++ [Ev f args kw])).

(** a call whose result is a plain value *)
Definition call (f : api) (args : list pyval) (kw : kwargs_t) : M pyval :=
  record_call f args kw ;; mret (PRet f args kw).

(** a call that constructs a library object *)
Definition construct (f : api) (args : list pyval) (kw : kwargs_t) (o : obj) : M nat :=
  record_call f args kw ;;
  w ← get_world;
  modify (set_heap (λ h, h ++ [o])) ;;
  mret (length (heap w)).

(** a method call that updates its receiver in place *)
Definition method (f : api) (self : nat) (args : list pyval) (kw : kwargs_t)
    (upd : obj → obj) : M unit :=
  record_call f (PObj self :: args) kw ;;
  modify (set_heap (alter upd self)).

Definition deref (r : nat) : M (option obj) := λ w, (heap w !! r, w).

(** ** What the notebooks cannot know about the libraries and the machine *)

Record Env := {
  afq_home : string;                         (* paths.afq_home *)
  hbn_study_path : string;                   (* study directory the HBN fetchers return *)
  hbn_preproc_files : list string → list (string * content);   (* files a fetch holds *)
  hbn_afq_files : list string → list (string * content);
  nifti_shape : pyval → Z * Z * Z;           (* shape of the array an image holds *)
  new_actor_property : event → gmap string pyval;   (* vtkProperty of a new actor *)
  template_files : list (string * content); (* files read_templates fetches *)
  (* GroupAFQ, by configuration, requested output and current disk: *)
  pipeline_files : kwargs_t → string → gmap string content → list string;  (* files export writes *)
  pipeline_draws : kwargs_t → string → gmap string content → nat;  (* random values export draws *)
  montage_files : kwargs_t → list pyval → list string;   (* files group_montage writes *)
  seed_state : Z → Z;                        (* generator state after seed(n) *)
  rng_next : Z → Z * Z                       (* one draw: value, next state *)
}.

Section Library.
Context (E : Env).

(** *** fetchers: files already on disk are kept *)

Definition download (files : list (string * content)) : M unit :=
  modify (set_disk (add_missing files)).

Definition fetch_hbn_preproc (subjects : list string) : M (pyval * string) :=
  r ← call afd_fetch_hbn_preproc [PList (PStr <$> subjects)] [];
  download (hbn_preproc_files E subjects) ;;
  mret (PItem r (PInt 0), hbn_study_path E).

Definition fetch_hbn_afq (subjects : list string) : M (pyval * string) :=
  r ← call afd_fetch_hbn_afq [PList (PStr <$> subjects)] [];
  download (hbn_afq_files E subjects) ;;
  mret (PItem r (PInt 0), hbn_study_path E).

(** *** images and tractograms *)

Definition image_src (o : option obj) : pyval :=
  match o with Some (ONifti src) => src | _ => PNone end.

Definition nibabel_load (path : string) : M nat :=
  construct nib_load [PStr path] [] (ONifti (PStr path)).

Definition img_get_fdata (img : nat) : M ndarray :=
  o ← deref img;
  v ← call get_fdata [PObj img] [];
  mret (NdArray v (nifti_shape E (image_src o))).

Definition img_affine (img : nat) : pyval := PAttr (PObj img) "affine".

Definition dipy_load_trk (path : string) (reference : nat) : M nat :=
  construct load_trk [PStr path; PObj reference] [] (OTractogram path reference RASMM).

Definition set_space (s : Space) (o : obj) : obj :=
  match o with OTractogram trk ref _ => OTractogram trk ref s | _ => o end.

Definition sft_to_rasmm (sft : nat) : M unit := method to_rasmm sft [] [] (set_space RASMM).
Definition sft_to_vox (sft : nat) : M unit := method to_vox sft [] [] (set_space VOX).

Definition sft_streamlines (sft : nat) : M pyval :=
  o ← deref sft;
  mret (match o with
        | Some (OTractogram trk _ sp) => PStreamlines trk sp
        | _ => PAttr (PObj sft) "streamlines"
        end).

Definition dipy_resample (moving static : nat) : M nat :=
  construct resample [PObj moving; PObj static] []
    (ONifti (PRet resample [PObj moving; PObj static] [])).

(** *** fury actors *)

Definition on_actor (f : actor_t → actor_t) (o : obj) : obj :=
  match o with OActor a => OActor (f a) | _ => o end.

Definition set_property (name : string) (v : pyval) (a : actor_t) : actor_t :=
  Actor (made_by a) (<[name := v]> (property a)) (extent a).

Definition set_extent (e : extent_t) (a : actor_t) : actor_t :=
  Actor (made_by a) (property a) (Some e).

Definition new_actor (ev : event) : actor_t := Actor ev (new_actor_property E ev) None.

Definition fury_actor_line (sl : pyval) (kw : kwargs_t) : M nat :=
  construct actor_line [sl] kw (OActor (new_actor (Ev actor_line [sl] kw))).

(** [a.GetProperty()] hands out the actor's own vtkProperty, so the setters
    called on it update the actor. *)
Definition actor_GetProperty (a : nat) : M nat :=
  record_call GetProperty [PObj a] [] ;; mret a.

Definition prop_SetRenderLinesAsTubes (a : nat) (v : pyval) : M unit :=
  method SetRenderLinesAsTubes a [v] [] (on_actor (set_property "RenderLinesAsTubes" v)).

Definition prop_SetLineWidth (a : nat) (v : pyval) : M unit :=
  method SetLineWidth a [v] [] (on_actor (set_property "LineWidth" v)).

Definition fury_actor_slicer (data : ndarray) : M nat :=
  construct actor_slicer [arr_val data] []
    (OActor (new_actor (Ev actor_slicer [arr_val data] []))).

Definition slicer_display_extent (a : nat) (x1 x2 y1 y2 z1 z2 : Z) : M unit :=
  method display_extent a [PInt x1; PInt x2; PInt y1; PInt y2; PInt z1; PInt z2] []
    (on_actor (set_extent (Extent x1 x2 y1 y2 z1 z2))).

(** [slicer.copy()] is a new actor with the state of the original *)
Definition slicer_actor_copy (a : nat) : M nat :=
  o ← deref a;
  construct slicer_copy [PObj a] []
    (match o with Some o' => o' | None => OActor (new_actor (Ev slicer_copy [PObj a] [])) end).

Definition fury_contour_from_roi (data : pyval) (kw : kwargs_t) : M nat :=
  construct actor_contour_from_roi [data] kw
    (OActor (new_actor (Ev actor_contour_from_roi [data] kw))).

(** *** fury scenes and windows *)

Definition on_scene (f : scene_t → scene_t) (o : obj) : obj :=
  match o with OScene s => OScene (f s) | _ => o end.

Definition fury_window_Scene : M nat :=
  construct window_Scene [] [] (OScene (Scene [] None)).

Definition Scene_add (sc a : nat) : M unit :=
  method scene_add sc [PObj a] [] (on_scene (λ s, Scene (sc_actors s ++ [a]) (sc_camera s))).

Definition Scene_clear (sc : nat) : M unit :=
  method scene_clear sc [] [] (on_scene (λ s, Scene [] (sc_camera s))).

Definition Scene_set_camera (sc : nat) (position focal_point view_up : pyval) : M unit :=
  method scene_set_camera sc []
    [("position", position); ("focal_point", focal_point); ("view_up", view_up)]
    (on_scene (λ s, Scene (sc_actors s) (Some (position, focal_point, view_up)))).

Definition actor_at (h : list obj) (r : nat) : option actor_t :=
  match h !! r with Some (OActor a) => Some a | _ => None end.

(** what a scene shows at the moment it is rendered *)
Definition snapshot (h : list obj) (sc : nat) (size : Z * Z) : content :=
  match h !! sc with
  | Some (OScene s) => Rendering (omap (actor_at h) (sc_actors s)) (sc_camera s) size
  | _ => Rendering [] None size
  end.

(** [window.record(scene, out_path=..., size=...)] renders the scene into the
    PNG file [out_path] (the notebook passes the scene by keyword in three of
    its four calls and by position in the last). *)
Definition fury_window_record (sc : nat) (out_path : string) (size : Z * Z) : M unit :=
  record_call window_record [PObj sc]
    [("out_path", PStr out_path); ("size", PTuple [PInt size.1; PInt size.2])] ;;
  w ← get_world;
  modify (set_disk (write_file out_path (snapshot (heap w) sc size))).

(** *** AFQ.viz.utils.PanelFigure *)

Definition new_PanelFigure (num_rows num_cols width height : Z) : M nat :=
  construct PanelFigure [PInt num_rows; PInt num_cols; PInt width; PInt height] []
    (OPanelFigure [num_rows; num_cols; width; height] []).

(** [pf.add_img(fname, x, y)] reads the image file when it is added *)
Definition pf_add_img (pf : nat) (fname : string) (x y : Z) : M unit :=
  w ← get_world;
  method add_img pf [PStr fname; PInt x; PInt y] []
    (λ o, match o with
          | OPanelFigure dims panels => OPanelFigure dims (panels ++ [(read_file fname (disk w), x, y)])
          | _ => o
          end).

Definition pf_format_and_save_figure (pf : nat) (fname : string) : M unit :=
  record_call format_and_save_figure [PObj pf; PStr fname] [] ;;
  o ← deref pf;
  modify (set_disk (write_file fname (Montage (match o with
                                              | Some (OPanelFigure _ panels) => panels
                                              | _ => []
                                              end)))).

(** *** numpy.random *)

Definition numpy_random_seed (n : Z) : M unit :=
  record_call np_random_seed [PInt n] [] ;;
  modify (λ w, World (disk w) (heap w) (seed_state E n) (drawn w) (log w)).

(** the next [n] values of the generator in state [s], and its state after them *)
Fixpoint draw_values (n : nat) (s : Z) : list Z :=
  match n with
  | O => []
  | S n' => (rng_next E s).1 :: draw_values n' (rng_next E s).2
  end.

Fixpoint draw_state (n : nat) (s : Z) : Z :=
  match n with
  | O => s
  | S n' => draw_state n' (rng_next E s).2
  end.

(** library code drawing [n] values from the global generator *)
Definition draw_random (n : nat) : M (list Z) :=
  λ w, (draw_values n (np_random w),
        World (disk w) (heap w) (draw_state n (np_random w))
              (drawn w ++ draw_values n (np_random w)) (log w)).

(** *** pyAFQ *)

Definition read_templates (kw : kwargs_t) : M pyval :=
  r ← call afd_read_templates [] kw;
  download (template_files E) ;;
  mret r.

Definition new_GroupAFQ (kw : kwargs_t) : M nat :=
  construct GroupAFQ [] kw (OGroupAFQ kw).

Definition config_of (o : option obj) : kwargs_t :=
  match o with Some (OGroupAFQ c) => c | _ => [] end.

(** [myafq.export(what)] runs whatever part of the pipeline [what] needs:
    it draws its random values from the global generator and writes its
    derivatives. *)
Definition GroupAFQ_export (g : nat) (what : string) : M pyval :=
  o ← deref g;
  r ← call export [PObj g; PStr what] [];
  w ← get_world;
  vals ← draw_random (pipeline_draws E (config_of o) what (disk w));
  modify (set_disk (write_all (pipeline_files E (config_of o) what (disk w))
                              (Derived what (config_of o) vals))) ;;
  mret r.

Definition GroupAFQ_group_montage (g : nat) (args : list pyval) (kw : kwargs_t) : M pyval :=
  o ← deref g;
  r ← call group_montage (PObj g :: args) kw;
  modify (set_disk (write_all (montage_files E (config_of o) args)
                              (Derived "group_montage" (config_of o) []))) ;;
  mret r.

End Library.

(** * The visualisation notebook *)

Module Viz.
Section Notebook.
Context (E : Env).

(** tab20.colors[i] from matplotlib.cm *)
Definition tab20_colors (i : Z) : pyval :=
  PItem (PAttr (PName "matplotlib.cm.tab20") "colors") (PInt i).

(** ** def lines_as_tubes(sl, line_width, **kwargs) *)
Definition lines_as_tubes (sl : pyval) (line_width : pyval) (kwargs : kwargs_t) : M nat :=
  line_actor ← fury_actor_line E sl kwargs;
  p ← actor_GetProperty line_actor;
  prop_SetRenderLinesAsTubes p (PInt 1) ;;
  p ← actor_GetProperty line_actor;
  prop_SetLineWidth p line_width ;;
  mret line_actor.

(** ** def slice_volume(data, x=None, y=None, z=None) *)
Definition slice_volume (data : ndarray) (x y z : option Z) : M (list nat) :=
  let slicer_actors := [] in
  slicer_actor_z ← fury_actor_slicer E data;
  slicer_actors ←
    match z with
    | Some z =>
        slicer_display_extent slicer_actor_z
          0 (shape0 data - 1)
          0 (shape1 data - 1)
          z z ;;
        mret (slicer_actors ++ [slicer_actor_z])
    | None => mret slicer_actors
    end;
  slicer_actors ←
    match y with
    | Some y =>
        slicer_actor_y ← slicer_actor_copy E slicer_actor_z;
        slicer_display_extent slicer_actor_y
          0 (shape0 data - 1)
          y y
          0 (shape2 data - 1) ;;
        mret (slicer_actors ++ [slicer_actor_y])
    | None => mret slicer_actors
    end;
  slicer_actors ←
    match x with
    | Some x =>
        slicer_actor_x ← slicer_actor_copy E slicer_actor_z;
        slicer_display_extent slicer_actor_x
          x x
          0 (shape1 data - 1)
          0 (shape2 data - 1) ;;
        mret (slicer_actors ++ [slicer_actor_x])
    | None => mret slicer_actors
    end;
  mret slicer_actors.

(** File names of the subject's derivatives, as the cells below spell them. *)
Definition fa_file : string :=
  "sub-NDARAA948VFH_ses-HBNsiteRU_acq-64dir_space-T1w_desc-preproc_dwi_model-DKI_FA.nii.gz".
Definition arc_trk_file : string :=
  "sub-NDARAA948VFH_ses-HBNsiteRU_acq-64dir_space-T1w_desc-preproc_dwi_space-RASMM_model-CSD_desc-prob-afq-ARC_L_tractography.trk".
Definition cst_trk_file : string :=
  "sub-NDARAA948VFH_ses-HBNsiteRU_acq-64dir_space-T1w_desc-preproc_dwi_space-RASMM_model-CSD_desc-prob-afq-CST_L_tractography.trk".
Definition t1w_file : string :=
  "qsiprep/sub-NDARAA948VFH/anat/sub-NDARAA948VFH_desc-preproc_T1w.nii.gz".
Definition roi1_file : string :=
  "sub-NDARAA948VFH_ses-HBNsiteRU_acq-64dir_space-T1w_desc-preproc_dwi_desc-ROI-ARC_L-1-include.nii.gz".
Definition roi2_file : string :=
  "sub-NDARAA948VFH_ses-HBNsiteRU_acq-64dir_space-T1w_desc-preproc_dwi_desc-ROI-ARC_L-2-include.nii.gz".

(** ** Cell: get some data from HBN POD2 *)
Definition cell_fetch : M (string * string * string) :=
  _ ← fetch_hbn_preproc E ["NDARAA948VFH"];
  r ← fetch_hbn_afq E ["NDARAA948VFH"];
  let study_path := r.2 in
  let deriv_path := op_join study_path "derivatives" in
  let afq_path :=
    op_join (op_join (op_join deriv_path "afq") "sub-NDARAA948VFH") "ses-HBNsiteRU" in
  let bundle_path := op_join afq_path "bundles" in
  mret (deriv_path, afq_path, bundle_path).

(** ** Cell: read data into memory *)
Definition cell_load (afq_path bundle_path : string) : M (nat * ndarray * nat * nat) :=
  fa_img ← nibabel_load (op_join afq_path fa_file);
  fa ← img_get_fdata E fa_img;
  sft_arc ← dipy_load_trk (op_join bundle_path arc_trk_file) fa_img;
  sft_cst ← dipy_load_trk (op_join bundle_path cst_trk_file) fa_img;
  mret (fa_img, fa, sft_arc, sft_cst).

(** ** Cell: transform into the T1w reference frame *)
Definition cell_transform (deriv_path : string) (sft_arc sft_cst : nat)
    : M (nat * ndarray * pyval * pyval) :=
  t1w_img ← nibabel_load (op_join deriv_path t1w_file);
  t1w ← img_get_fdata E t1w_img;
  sft_to_rasmm sft_arc ;;
  sft_to_rasmm sft_cst ;;
  sl ← sft_streamlines sft_arc;
  inv ← call np_linalg_inv [img_affine t1w_img] [];
  arc_t1w ← call transform_streamlines [sl; inv] [];
  sl ← sft_streamlines sft_cst;
  inv ← call np_linalg_inv [img_affine t1w_img] [];
  cst_t1w ← call transform_streamlines [sl; inv] [];
  mret (t1w_img, t1w, arc_t1w, cst_t1w).

(** ** Cell: bundles with principal direction colouring *)
Definition cell_bundles (arc_t1w cst_t1w : pyval) : M (nat * nat) :=
  arc_actor ← lines_as_tubes arc_t1w (PInt 8) [];
  cst_actor ← lines_as_tubes cst_t1w (PInt 8) [];
  mret (arc_actor, cst_actor).

(** ** Cell: slicer actors; [t1w.shape[-1]] is the last of the three dimensions *)
Definition cell_slicers (t1w : ndarray) : M (list nat) :=
  slice_volume t1w (Some (shape0 t1w `div` 2)) None (Some (shape2 t1w `div` 3)).

(** ** Cell: making a scene *)
Definition cell_scene (arc_actor cst_actor : nat) (slicers : list nat) : M nat :=
  scene ← fury_window_Scene;
  Scene_add scene arc_actor ;;
  Scene_add scene cst_actor ;;
  for_each slicers (λ slicer, Scene_add scene slicer) ;;
  mret scene.

(** ** Cell: camera settings *)
Definition cell_camera (scene : nat) : M unit :=
  Scene_set_camera scene
    (PTuple [PFloat "238.04"; PFloat "174.48"; PFloat "143.04"])
    (PTuple [PFloat "96.32"; PFloat "110.34"; PFloat "84.48"])
    (PTuple [PFloat "-0.33"; PFloat "-0.12"; PFloat "0.94"]).

(** ** Cell: record the visualisation *)
Definition cell_record1 (scene : nat) : M string :=
  let out_folder := op_join (afq_home E) "viz_results" in
  e ← op_exists (op_join out_folder "arc_cst1.png");
  (if negb e then
     fury_window_record scene (op_join out_folder "arc_cst1.png") (2400, 2400)
   else mret tt) ;;
  mret out_folder.

(** ** Cell: setting bundle colours *)
Definition cell_colors (arc_t1w cst_t1w : pyval) (scene : nat) (slicers : list nat)
    (out_folder : string) : M (pyval * pyval) :=
  let color_arc := tab20_colors 18 in
  let color_cst := tab20_colors 2 in
  arc_actor ← lines_as_tubes arc_t1w (PInt 8) [("colors", color_arc)];
  cst_actor ← lines_as_tubes cst_t1w (PInt 8) [("colors", color_cst)];
  Scene_clear scene ;;
  Scene_add scene arc_actor ;;
  Scene_add scene cst_actor ;;
  for_each slicers (λ slicer, Scene_add scene slicer) ;;
  e ← op_exists (op_join out_folder "arc_cst2.png");
  (if negb e then
     fury_window_record scene (op_join out_folder "arc_cst2.png") (2400, 2400)
   else mret tt) ;;
  mret (color_arc, color_cst).

(** ** Cell: core bundles with tract profiles *)
Definition cell_core (fa : ndarray) (sft_arc sft_cst : nat) (arc_t1w cst_t1w : pyval)
    (scene : nat) (slicers : list nat) (out_folder : string)
    (color_arc color_cst : pyval) : M unit :=
  pts ← call set_number_of_points [arc_t1w; PInt 100] [];
  arr ← call np_asarray [pts] [];
  core_arc ← call np_median [arr] [("axis", PInt 0)];
  pts ← call set_number_of_points [cst_t1w; PInt 100] [];
  arr ← call np_asarray [pts] [];
  core_cst ← call np_median [arr] [("axis", PInt 0)];
  sft_to_vox sft_arc ;;
  sft_to_vox sft_cst ;;
  sl ← sft_streamlines sft_arc;
  eye ← call np_eye [PInt 4] [];
  arc_profile ← call afq_profile [arr_val fa; sl] [("affine", eye)];
  sl ← sft_streamlines sft_cst;
  eye ← call np_eye [PInt 4] [];
  cst_profile ← call afq_profile [arr_val fa; sl] [("affine", eye)];
  cmap ← call create_colormap [arc_profile; PStr "viridis"] [];
  core_arc_actor ← lines_as_tubes (PList [core_arc]) (PInt 40) [("colors", cmap)];
  cmap ← call create_colormap [cst_profile; PStr "viridis"] [];
  core_cst_actor ← lines_as_tubes (PList [core_cst]) (PInt 40) [("colors", cmap)];
  Scene_clear scene ;;
  arc_actor ← lines_as_tubes arc_t1w (PInt 8)
                [("colors", color_arc); ("opacity", PFloat "0.1")];
  cst_actor ← lines_as_tubes cst_t1w (PInt 8)
                [("colors", color_cst); ("opacity", PFloat "0.1")];
  Scene_add scene arc_actor ;;
  Scene_add scene cst_actor ;;
  for_each slicers (λ slicer, Scene_add scene slicer) ;;
  Scene_add scene core_arc_actor ;;
  Scene_add scene core_cst_actor ;;
  e ← op_exists (op_join out_folder "arc_cst3.png");
  (if negb e then
     fury_window_record scene (op_join out_folder "arc_cst3.png") (2400, 2400)
   else mret tt).

(** ** Cell: adding ROIs *)
Definition cell_rois (afq_path : string) (t1w_img : nat) (arc_t1w cst_t1w : pyval)
    (scene : nat) (slicers : list nat) (out_folder : string)
    (color_arc color_cst : pyval) : M unit :=
  waypoint1 ← nibabel_load (op_join (op_join afq_path "ROIs") roi1_file);
  waypoint2 ← nibabel_load (op_join (op_join afq_path "ROIs") roi2_file);
  waypoint1_xform ← dipy_resample waypoint1 t1w_img;
  waypoint2_xform ← dipy_resample waypoint2 t1w_img;
  d ← img_get_fdata E waypoint1_xform;
  let waypoint1_data := PExpr ">" [arr_val d; PInt 0] in
  d ← img_get_fdata E waypoint2_xform;
  let waypoint2_data := PExpr ">" [arr_val d; PInt 0] in
  Scene_clear scene ;;
  arc_actor ← lines_as_tubes arc_t1w (PInt 8) [("colors", color_arc)];
  cst_actor ← lines_as_tubes cst_t1w (PInt 8) [("colors", color_cst)];
  Scene_add scene arc_actor ;;
  Scene_add scene cst_actor ;;
  for_each slicers (λ slicer, Scene_add scene slicer) ;;
  let surface_color := tab20_colors 0 in
  waypoint1_actor ← fury_contour_from_roi E waypoint1_data
                      [("color", surface_color); ("opacity", PFloat "0.5")];
  waypoint2_actor ← fury_contour_from_roi E waypoint2_data
                      [("color", surface_color); ("opacity", PFloat "0.5")];
  Scene_add scene waypoint1_actor ;;
  Scene_add scene waypoint2_actor ;;
  e ← op_exists (op_join out_folder "arc_cst4.png");
  (if negb e then
     fury_window_record scene (op_join out_folder "arc_cst4.png") (2400, 2400)
   else mret tt).

(** ** Cell: a figure out of many fury panels *)
Definition cell_figure (out_folder : string) : M unit :=
  pf ← new_PanelFigure 3 2 6 9;
  pf_add_img pf (op_join out_folder "arc_cst1.png") 0 0 ;;
  pf_add_img pf (op_join out_folder "arc_cst2.png") 1 0 ;;
  pf_add_img pf (op_join out_folder "arc_cst3.png") 0 1 ;;
  pf_add_img pf (op_join out_folder "arc_cst4.png") 1 1 ;;
  e ← op_exists (op_join out_folder "arc_cst_fig.png");
  (if negb e then
     pf_format_and_save_figure pf (op_join out_folder "arc_cst_fig.png")
   else mret tt).

(** The variables a later cell still reads after the first figure. *)
Record vars := Vars {
  afq_path : string; fa : ndarray; sft_arc : nat; sft_cst : nat; t1w_img : nat;
  arc_t1w : pyval; cst_t1w : pyval; slicers : list nat; scene : nat; out_folder : string
}.

(** Cells up to the first recorded figure, in notebook order. *)
Definition first_figure : M vars :=
  '(deriv_path, afq_path, bundle_path) ← cell_fetch;
  '(fa_img, fa, sft_arc, sft_cst) ← cell_load afq_path bundle_path;
  '(t1w_img, t1w, arc_t1w, cst_t1w) ← cell_transform deriv_path sft_arc sft_cst;
  '(arc_actor, cst_actor) ← cell_bundles arc_t1w cst_t1w;
  slicers ← cell_slicers t1w;
  scene ← cell_scene arc_actor cst_actor slicers;
  cell_camera scene ;;
  out_folder ← cell_record1 scene;
  mret (Vars afq_path fa sft_arc sft_cst t1w_img arc_t1w cst_t1w slicers scene out_folder).

(** The remaining cells: three variations of the figure and the montage. *)
Definition further_figures (v : vars) : M unit :=
  '(color_arc, color_cst) ←
    cell_colors (arc_t1w v) (cst_t1w v) (scene v) (slicers v) (out_folder v);
  cell_core (fa v) (sft_arc v) (sft_cst v) (arc_t1w v) (cst_t1w v)
            (scene v) (slicers v) (out_folder v) color_arc color_cst ;;
  cell_rois (afq_path v) (t1w_img v) (arc_t1w v) (cst_t1w v)
            (scene v) (slicers v) (out_folder v) color_arc color_cst ;;
  cell_figure (out_folder v).

Definition notebook : M unit :=
  v ← first_figure;
  further_figures v.

End Notebook.
End Viz.

(** * The SLF notebook: adding new bundles into pyAFQ *)

Module Slf.
Section Notebook.
Context (E : Env).

(** ** Cell: imports, then [np.random.seed(1234)] *)
Definition cell_imports : M unit :=
  numpy_random_seed E 1234.

(** ** Cell: get dMRI data *)
Definition cell_fetch : M string :=
  r ← fetch_hbn_preproc E ["NDARAA948VFH"];
  let study_dir := r.2 in
  mret study_dir.

(** ** Cell: define the custom BundleDict *)
Definition cell_bundles : M pyval :=
  let template_dir := op_join (afq_home E) "SLF_ROIs" in
  templates_afq ← read_templates E [("as_img", PBool false)];
  bundles ← call abd_BundleDict [PDict [
    ("L_SLF1", PDict [
      ("include", PList [PStr (template_dir +:+ "/SFgL.nii.gz");
                         PStr (template_dir +:+ "/PaL.nii.gz")]);
      ("exclude", PList [PItem templates_afq (PStr "SLFt_roi2_L")]);
      ("cross_midline", PBool false);
      ("mahal", PDict [("clean_rounds", PInt 20);
                       ("length_threshold", PInt 4);
                       ("distance_threshold", PInt 2)])])]] [];
  mret bundles.

(** The keyword arguments of the GroupAFQ call, given the values of the
    variables and of [RoiImage()] they mention. *)
Definition groupafq_kwargs (study_dir : string) (brain_mask_definition roi bundles : pyval)
    : kwargs_t :=
  [("bids_path", PStr study_dir);
   ("preproc_pipeline", PStr "qsiprep");
   ("participant_labels", PList [PStr "NDARAA948VFH"]);
   ("output_dir", PStr (op_join (op_join study_dir "derivatives") "afq_slf"));
   ("brain_mask_definition", brain_mask_definition);
   ("tracking_params", PDict [("n_seeds", PInt 4); ("directions", PStr "prob");
                              ("odf_model", PStr "CSD"); ("seed_mask", roi)]);
   ("segmentation_params", PDict [("parallel_segmentation",
                                   PDict [("engine", PStr "serial")])]);
   ("bundle_info", bundles)].

(** ** Cell: define the GroupAFQ object and run the pipeline *)
Definition cell_groupafq (study_dir : string) (bundles : pyval) : M nat :=
  brain_mask_definition ← call ImageFile []
    [("suffix", PStr "mask");
     ("filters", PDict [("desc", PStr "brain"); ("space", PStr "T1w");
                        ("scope", PStr "qsiprep")])];
  roi ← call RoiImage [] [];
  my_afq ← new_GroupAFQ (groupafq_kwargs study_dir brain_mask_definition roi bundles);
  _ ← GroupAFQ_export E my_afq "profiles";
  mret my_afq.

(** ** Cell: visualise a montage *)
Definition cell_montage (my_afq : nat) : M unit :=
  montage ← GroupAFQ_group_montage E my_afq
    [PStr "L_SLF1"; PTuple [PInt 3; PInt 4]; PStr "Sagittal"; PStr "left"]
    [("slice_pos", PFloat "0.5")];
  _ ← call IPython_Image [] [("filename", PItem montage (PInt 0))];
  mret tt.

(** ** Cell: interactive bundle visualisation *)
Definition cell_html (my_afq : nat) : M unit :=
  bundle_html ← GroupAFQ_export E my_afq "all_bundles_figure";
  _ ← call plotly_io_show [PItem (PItem bundle_html (PStr "NDARAA948VFH")) (PInt 0)] [];
  mret tt.

(** Cells up to the construction of the pipeline object's inputs. *)
Definition before_pipeline : M (string * pyval) :=
  cell_imports ;;
  study_dir ← cell_fetch;
  bundles ← cell_bundles;
  mret (study_dir, bundles).

Definition notebook : M unit :=
  '(study_dir, bundles) ← before_pipeline;
  my_afq ← cell_groupafq study_dir bundles;
  cell_montage my_afq ;;
  cell_html my_afq.

End Notebook.
End Slf.

(** * The RecoBundles notebook *)

Module Reco.
Section Notebook.
Context (E : Env).

(** ** Cell: define the segmentation parameters and run *)
Definition cell_groupafq : M nat :=
  let output_dir :=
    op_join (op_join (op_join (afq_home E) "stanford_hardi") "derivatives") "recobundles" in
  let bids_path := op_join (afq_home E) "stanford_hardi" in
  bundle_info ← call abd_reco_bd [PInt 16] [];
  myafq ← new_GroupAFQ [("output_dir", PStr output_dir);
                        ("bids_path", PStr bids_path);
                        ("bundle_info", bundle_info);
                        ("preproc_pipeline", PStr "vistasoft")];
  _ ← GroupAFQ_export E myafq "profiles";
  mret myafq.

(** ** Cell: show the bundles figure *)
Definition cell_show (myafq : nat) : M unit :=
  fig ← GroupAFQ_export E myafq "all_bundles_figure";
  _ ← call plotly_io_show [PItem (PItem fig (PStr "01")) (PInt 0)] [];
  mret tt.

Definition notebook : M unit :=
  myafq ← cell_groupafq;
  cell_show myafq.

End Notebook.
End Reco.

(** * Running a notebook *)

(** A run starts a fresh kernel on the disk as it is; the generator starts
    in whatever state the operating system's entropy put it. *)
Definition run (nb : M unit) (d : gmap string content) (seed0 : Z) : world :=
  exec nb (fresh_kernel d seed0).

Definition calls (w : world) : list api := ev_fn <$> log w.

(** A sample environment, for evaluating the notebooks on concrete inputs. *)
Definition sample_env : Env := {|
  afq_home := "/home/jovyan/data";
  hbn_study_path := "/home/jovyan/AFQ_data/HBN";
  (* the T1-weighted image the visualisation notebook loads *)
  hbn_preproc_files := λ subjects,
    [(op_join (op_join "/home/jovyan/AFQ_data/HBN" "derivatives") Viz.t1w_file,
      Dataset afd_fetch_hbn_preproc subjects)];
  (* the FA map it loads right after the fetch *)
  hbn_afq_files := λ subjects,
    [(op_join (op_join (op_join (op_join (op_join "/home/jovyan/AFQ_data/HBN"
        "derivatives") "afq") "sub-NDARAA948VFH") "ses-HBNsiteRU") Viz.fa_file,
      Dataset afd_fetch_hbn_afq subjects)];
  template_files := [];
  nifti_shape := λ _, (200, 240, 180);
  new_actor_property := λ _, ∅;
  pipeline_files := λ _ _ _, [];
  pipeline_draws := λ _ what _, match what with "profiles" => 3%nat | _ => 0%nat end;
  montage_files := λ _ _, [];
  seed_state := λ n, n;
  rng_next := λ s, (s * 1103515245 + 12345, s + 1)
|}.

(** * What the claims are stated with *)

(** The display extents [slice_volume] is expected to give its slicers: one
    per argument that is not None, in the order z, y, x; the selected slice
    along its own axis, the full extent [0, shape - 1] along the other two. *)
Definition claimed_extents (data : ndarray) (x y z : option Z) : list extent_t :=
  omap id
    [ (λ z, Extent 0 (shape0 data - 1) 0 (shape1 data - 1) z z) <$> z;
      (λ y, Extent 0 (shape0 data - 1) y y 0 (shape2 data - 1)) <$> y;
      (λ x, Extent x x 0 (shape1 data - 1) 0 (shape2 data - 1)) <$> x ].

(** In world [w], reference [r] is a slicer actor of [data] showing [e]. *)
Definition slicer_showing (w : world) (data : ndarray) (r : nat) (e : extent_t) : Prop :=
  ∃ a, heap w !! r = Some (OActor a) ∧
       made_by a = Ev actor_slicer [arr_val data] [] ∧
       extent a = Some e.

(** ** Figures of the visualisation notebook *)

Definition figure_names : list string :=
  ["arc_cst1.png"; "arc_cst2.png"; "arc_cst3.png"; "arc_cst4.png"; "arc_cst_fig.png"].

Definition figure_path (E : Env) (name : string) : string :=
  op_join (op_join (afq_home E) "viz_results") name.

Definition figure_paths (E : Env) : list string := figure_path E <$> figure_names.

Definition kwarg (name : string) (kw : kwargs_t) : option pyval :=
  snd <$> List.find (λ kv, String.eqb kv.1 name) kw.

(** the file a rendering or saving call writes *)
Definition saved_path (e : event) : option string :=
  match ev_fn e with
  | window_record =>
      match kwarg "out_path" (ev_kwargs e) with Some (PStr p) => Some p | _ => None end
  | format_and_save_figure =>
      match ev_args e with [_; PStr p] => Some p | _ => None end
  | _ => None
  end.

Definition saved_paths (l : list event) : list string := omap saved_path l.

(** The disk once the first cell of the visualisation notebook has fetched
    the data; from there on only the guarded calls write. *)
Definition after_fetch (E : Env) (d0 : gmap string content) : gmap string content :=
  disk (exec (Viz.cell_fetch E) (fresh_kernel d0 0)).


(** ** Fetching before use *)

Definition is_fetcher (f : api) : bool :=
  match f with afd_fetch_hbn_preproc | afd_fetch_hbn_afq => true | _ => false end.

(** Seeding numpy's generator touches no data; every other call that is not
    a fetcher is an analysis or visualisation call. *)
Definition uses_data (f : api) : bool :=
  match f with
  | afd_fetch_hbn_preproc | afd_fetch_hbn_afq | np_random_seed => false
  | _ => true
  end.

(** a fetcher is called, and before any call that uses data *)
Fixpoint fetch_first (fs : list api) : bool :=
  match fs with
  | [] => false
  | f :: rest => if is_fetcher f then true
                 else if uses_data f then false
                 else fetch_first rest
  end.

(** ** Stages of the glue pipeline *)








(** ** Parallelism options *)

Definition parallelism_key (k : string) : bool :=
  String.prefix "parallel" k || String.eqb k "engine" || String.eqb k "n_jobs".

Fixpoint selects_parallelism (v : pyval) : bool :=
  match v with
  | PDict kvs =>
      (fix go (kvs : list (string * pyval)) : bool :=
         match kvs with
         | [] => false
         | (k, v') :: rest => parallelism_key k || selects_parallelism v' || go rest
         end) kvs
  | PList xs | PTuple xs =>
      (fix go (xs : list pyval) : bool :=
         match xs with
         | [] => false
         | v' :: rest => selects_parallelism v' || go rest
         end) xs
  | _ => false
  end.

Definition configures_parallelism (e : event) : bool :=
  existsb selects_parallelism (ev_args e) ||
  existsb (λ kv, parallelism_key kv.1 || selects_parallelism kv.2) (ev_kwargs e).

(** ** Frame of the library objects *)








(** ** Files written inside library calls *)


(** ** Expected call sequence of the visualisation notebook, by which of the
    five figures exist when their guard is reached *)

Definition tube_calls : list api :=
  [actor_line; GetProperty; SetRenderLinesAsTubes; GetProperty; SetLineWidth].

Definition unless (b : bool) (f : api) : list api := if b then [] else [f].

Definition viz_calls (b1 b2 b3 b4 b5 : bool) : list api :=
  (* fetch, load, transform *)
  [afd_fetch_hbn_preproc; afd_fetch_hbn_afq;
   nib_load; get_fdata; load_trk; load_trk;
   nib_load; get_fdata; to_rasmm; to_rasmm;
   np_linalg_inv; transform_streamlines; np_linalg_inv; transform_streamlines]
  (* bundles, slicers, scene, camera, first figure *)
  ++ tube_calls ++ tube_calls
  ++ [actor_slicer; display_extent; slicer_copy; display_extent;
      window_Scene; scene_add; scene_add; scene_add; scene_add; scene_set_camera]
  ++ unless b1 window_record
  (* bundle colours *)
  ++ tube_calls ++ tube_calls
  ++ [scene_clear; scene_add; scene_add; scene_add; scene_add]
  ++ unless b2 window_record
  (* core bundles and profiles *)
  ++ [set_number_of_points; np_asarray; np_median;
      set_number_of_points; np_asarray; np_median;
      to_vox; to_vox; np_eye; afq_profile; np_eye; afq_profile; create_colormap]
  ++ tube_calls ++ [create_colormap] ++ tube_calls
  ++ [scene_clear] ++ tube_calls ++ tube_calls
  ++ [scene_add; scene_add; scene_add; scene_add; scene_add; scene_add]
  ++ unless b3 window_record
  (* ROIs *)
  ++ [nib_load; nib_load; resample; resample; get_fdata; get_fdata; scene_clear]
  ++ tube_calls ++ tube_calls
  ++ [scene_add; scene_add; scene_add; scene_add;
      actor_contour_from_roi; actor_contour_from_roi; scene_add; scene_add]
  ++ unless b4 window_record
  (* montage *)
  ++ [PanelFigure; add_img; add_img; add_img; add_img]
  ++ unless b5 format_and_save_figure.

Definition slf_calls : list api :=
  [np_random_seed; afd_fetch_hbn_preproc; afd_read_templates; abd_BundleDict;
   ImageFile; RoiImage; GroupAFQ; export; group_montage; IPython_Image;
   export; plotly_io_show].

Definition reco_calls : list api :=
  [abd_reco_bd; GroupAFQ; export; export; plotly_io_show].

(** the path a guarded call saves, unless the file exists *)
Definition saved_if (b : bool) (p : string) : list string := if b then [] else [p].

(** a guarded write, and a guarded log entry *)
Definition write_if (b : bool) (p : string) (c : content) (d : gmap string content)
    : gmap string content := if b then write_file p c d else d.

Definition log_if (b : bool) (e : event) (l : list event) : list event :=
  l ++ (if b then [e] else []).

(** * What the further properties are stated with *)

(** [l] if the optional argument is given *)
Definition when_given {A B} (o : option A) (l : list B) : list B :=
  match o with Some _ => l | None => [] end.

(** the file a tractogram was loaded from and the space it is in *)
Definition tractogram_at (w : world) (r : nat) : option (string * Space) :=
  match heap w !! r with Some (OTractogram trk _ sp) => Some (trk, sp) | _ => None end.

(** the path a data-loading call reads *)
Definition loaded_path (e : event) : option string :=
  match ev_fn e, ev_args e with
  | nib_load, PStr p :: _ => Some p
  | load_trk, PStr p :: _ => Some p
  | _, _ => None
  end.

Definition loaded_paths (l : list event) : list string := omap loaded_path l.

(** the streamlines handed to a call that works on coordinates: the
    tractogram file they come from and the space they are in when read *)
Definition streamlines_of (v : pyval) : option (string * Space) :=
  match v with PStreamlines trk sp => Some (trk, sp) | _ => None end.

Definition streamline_use (e : event) : option (api * option (string * Space) * kwargs_t) :=
  match ev_fn e, ev_args e with
  | transform_streamlines, sl :: _ =>
      Some (transform_streamlines, streamlines_of sl, ev_kwargs e)
  | afq_profile, _ :: sl :: _ => Some (afq_profile, streamlines_of sl, ev_kwargs e)
  | _, _ => None
  end.

Definition streamline_uses (l : list event)
    : list (api * option (string * Space) * kwargs_t) := omap streamline_use l.

(** what a rendered figure shows: the constructor of each actor, in scene
    order, and the camera *)
Definition shown (c : content) : list api * option (pyval * pyval * pyval) :=
  match c with
  | Rendering actors camera _ => (ev_fn ∘ made_by <$> actors, camera)
  | _ => ([], None)
  end.

(** the camera of the cell "camera settings" *)
Definition notebook_camera : pyval * pyval * pyval :=
  (PTuple [PFloat "238.04"; PFloat "174.48"; PFloat "143.04"],
   PTuple [PFloat "96.32"; PFloat "110.34"; PFloat "84.48"],
   PTuple [PFloat "-0.33"; PFloat "-0.12"; PFloat "0.94"]).

(** layout of the study directory, as the first cell spells it *)
Definition afq_dir (E : Env) : string :=
  op_join (op_join (op_join (op_join (hbn_study_path E) "derivatives") "afq")
             "sub-NDARAA948VFH") "ses-HBNsiteRU".

(** the files the visualisation notebook loads, in the order it loads them *)
Definition input_paths (E : Env) : list string :=
  [ op_join (afq_dir E) Viz.fa_file;
    op_join (op_join (afq_dir E) "bundles") Viz.arc_trk_file;
    op_join (op_join (afq_dir E) "bundles") Viz.cst_trk_file;
    op_join (op_join (hbn_study_path E) "derivatives") Viz.t1w_file;
    op_join (op_join (afq_dir E) "ROIs") Viz.roi1_file;
    op_join (op_join (afq_dir E) "ROIs") Viz.roi2_file ].

(** the four panels of the montage, read from disk [d] *)
Definition montage_panels (E : Env) (d : gmap string content)
    : list (option content * Z * Z) :=
  [ (read_file (figure_path E "arc_cst1.png") d, 0, 0);
    (read_file (figure_path E "arc_cst2.png") d, 1, 0);
    (read_file (figure_path E "arc_cst3.png") d, 0, 1);
    (read_file (figure_path E "arc_cst4.png") d, 1, 1) ].

(** content of [p] after "if not op.exists(p): save c to p", with [d1] the
    disk the guard sees *)
Definition after_guard (p : string) (c : content) (d1 : gmap string content)
    : option content := if file_exists p d1 then d1 !! p else Some c.

Fixpoint last_char (s : string) : option ascii :=
  match s with
  | "" => None
  | String c "" => Some c
  | String _ r => last_char r
  end.


(** a kernel in which an image and two tractograms are loaded, the
    tractograms left in voxel spaces by earlier cells *)
Definition loaded_kernel : world :=
  World ∅ [ONifti (PStr "fa.nii.gz"); OTractogram "arc.trk" 0 VOX;
           OTractogram "cst.trk" 0 VOXMM] 0 [] [].

(** * Symbolic execution *)

Lemma run_bind {A B} (m : M A) (k : A → M B) w a w1 r :
  m w = (a, w1) → k a w1 = r → (m ≫= k) w = r.
Proof. intros H1 H2. unfold mbind, M_bind. by rewrite H1. Qed.

Lemma heap_lookup_new (h l : list obj) k : (h ++ l) !! (length h + k)%nat = l !! k.
Proof. rewrite lookup_app_r by lia. f_equal. lia. Qed.

Lemma heap_lookup_new0 (h l : list obj) : (h ++ l) !! length h = l !! 0%nat.
Proof. rewrite <- (heap_lookup_new h l 0). f_equal. lia. Qed.

Lemma heap_lookup_old (h l : list obj) r : (r < length h)%nat → (h ++ l) !! r = h !! r.
Proof. apply lookup_app_l. Qed.

Lemma heap_alter_new (h l : list obj) f k :
  alter f (length h + k)%nat (h ++ l) = h ++ alter f k l.
Proof. rewrite alter_app_r_alt by lia. do 2 f_equal. lia. Qed.

Lemma heap_alter_new0 (h l : list obj) f : alter f (length h) (h ++ l) = h ++ alter f 0%nat l.
Proof. rewrite <- (heap_alter_new h l f 0). f_equal. lia. Qed.

(** unfold one library primitive on an explicit world *)
Ltac prim_cbv :=
  cbv [fury_actor_line actor_GetProperty prop_SetRenderLinesAsTubes prop_SetLineWidth
       fury_actor_slicer slicer_display_extent slicer_actor_copy fury_contour_from_roi
       construct method record_call call deref modify get_world
       mbind M_bind mret M_ret set_heap set_log set_disk
       disk heap np_random drawn log fst snd].

(** bring a heap [h ++ new] back to that form after an allocation or update *)
Ltac heap_norm :=
  repeat first
    [ rewrite <- app_assoc
    | rewrite length_app
    | rewrite heap_lookup_new
    | rewrite heap_lookup_new0
    | rewrite heap_alter_new
    | rewrite heap_alter_new0
    | progress simpl ].

(** run a sequence of primitives statement by statement *)
Ltac run_steps :=
  lazymatch goal with
  | |- @mret M _ _ _ _ = _ => reflexivity
  | |- (_ ≫= _) _ = _ =>
      eapply run_bind; [ run_steps | cbv beta iota; run_steps ]
  | |- _ => prim_cbv; heap_norm; reflexivity
  end.

(** * lines_as_tubes *)

Lemma actor_line_run E sl kw d h s dr l :
  fury_actor_line E sl kw (World d h s dr l) =
  (length h,
   World d (h ++ [OActor (new_actor E (Ev actor_line [sl] kw))]) s dr
         (l ++ [Ev actor_line [sl] kw])).
Proof. reflexivity. Qed.

Lemma lines_as_tubes_run E sl lw kw d h s dr l :
  Viz.lines_as_tubes E sl lw kw (World d h s dr l) =
  (length h,
   World d
     (h ++ [OActor (set_property "LineWidth" lw
                      (set_property "RenderLinesAsTubes" (PInt 1)
                         (new_actor E (Ev actor_line [sl] kw))))]) s dr
     (l ++ [Ev actor_line [sl] kw;
            Ev GetProperty [PObj (length h)] [];
            Ev SetRenderLinesAsTubes [PObj (length h); PInt 1] [];
            Ev GetProperty [PObj (length h)] [];
            Ev SetLineWidth [PObj (length h); lw] []])).
Proof. unfold Viz.lines_as_tubes. run_steps. Qed.

(** C9. [lines_as_tubes(sl, line_width, **kwargs)] returns the very actor that
    [actor.line(sl, **kwargs)] produced, with RenderLinesAsTubes set to 1 and
    LineWidth set to [line_width]; every other property of that actor, its
    geometry and its extent are as [actor.line] produced them, and no other
    object and no file is touched. *)
Theorem lines_as_tubes_sets_tube_properties E sl line_width kwargs w :
  let made := fury_actor_line E sl kwargs w in
  let res := Viz.lines_as_tubes E sl line_width kwargs w in
  res.1 = made.1 ∧
  (∃ a a',
     heap made.2 !! made.1 = Some (OActor a) ∧
     heap res.2 !! res.1 = Some (OActor a') ∧
     property a' !! "RenderLinesAsTubes" = Some (PInt 1) ∧
     property a' !! "LineWidth" = Some line_width ∧
     (∀ k, k ≠ "RenderLinesAsTubes" → k ≠ "LineWidth" →
           property a' !! k = property a !! k) ∧
     made_by a' = made_by a ∧ extent a' = extent a) ∧
  (∀ r, r ≠ res.1 → heap res.2 !! r = heap made.2 !! r) ∧
  disk res.2 = disk w.
Proof.
  destruct w as [d h s dr l]. cbv zeta.
  rewrite lines_as_tubes_run, actor_line_run. cbn [fst snd heap disk].
  split; [done|]. split; [|split; [|done]].
  - eexists _, _. rewrite !heap_lookup_new0. cbn [lookup list_lookup].
    split; [done|]. split; [done|]. cbn [set_property property made_by extent].
    split; [|split; [by rewrite lookup_insert_eq|split; [|done]]].
    + rewrite lookup_insert_ne by done. by rewrite lookup_insert_eq.
    + intros k H1 H2. by rewrite !lookup_insert_ne.
  - intros r Hr. destruct (decide (r < length h)%nat).
    + by rewrite !heap_lookup_old.
    + rewrite !lookup_ge_None_2; [done| |]; rewrite length_app; simpl; lia.
Qed.

Example lines_as_tubes_on_sample :
  (λ a, (property a !! "RenderLinesAsTubes", property a !! "LineWidth",
         property a !! "Opacity"))
    <$> actor_at (heap (exec (Viz.lines_as_tubes sample_env (PName "sl") (PInt 8)
                                [("opacity", PFloat "0.1")]) (fresh_kernel ∅ 0))) 0 =
  Some (Some (PInt 1), Some (PInt 8), None).
Proof. vm_compute. reflexivity. Qed.

(** * slice_volume *)

Lemma slice_volume_run E data x y z d h s dr l :
  ∃ rs new lg,
    Viz.slice_volume E data x y z (World d h s dr l) = (rs, World d (h ++ new) s dr lg) ∧
    Forall2 (λ r e, ∃ a k, r = (length h + k)%nat ∧ new !! k = Some (OActor a) ∧
                           made_by a = Ev actor_slicer [arr_val data] [] ∧
                           extent a = Some e)
            rs (claimed_extents data x y z) ∧
    NoDup rs.
Proof.
  unfold Viz.slice_volume.
  destruct x as [x|], y as [y|], z as [z|];
    (do 3 eexists; split; [ run_steps | ]).
  all: split;
    [ repeat constructor;
      first [ (eexists _, 0%nat; split; [lia | done])
            | (eexists _, 1%nat; split; [lia | done])
            | (eexists _, 2%nat; split; [lia | done]) ]
    | repeat (constructor; [ rewrite ?not_elem_of_cons; repeat split; try lia;
                             apply not_elem_of_nil | ]); constructor ].
Qed.

(** C8. For every volume and every combination of x, y, z, [slice_volume]
    returns one slicer actor of [data] per argument that is not None, in the
    order z, y, x, each showing the selected slice along its own axis and the
    full extent along the other two; the actors are pairwise distinct, and
    with all three arguments None the list is empty. *)
Theorem slice_volume_one_slicer_per_axis E data x y z w :
  let res := Viz.slice_volume E data x y z w in
  Forall2 (slicer_showing res.2 data) res.1 (claimed_extents data x y z) ∧
  NoDup res.1 ∧
  length res.1 = length (filter is_Some [z; y; x]) ∧
  eval (Viz.slice_volume E data None None None) w = [].
Proof.
  destruct w as [d h s dr l]. cbv zeta.
  destruct (slice_volume_run E data x y z d h s dr l) as (rs & new & lg & -> & HF & HN).
  cbn [fst snd]. split; [|split; [done|split]].
  - eapply Forall2_impl; [exact HF|].
    intros r e (a & k & -> & Hk & Hm & He). exists a.
    unfold heap. by rewrite heap_lookup_new.
  - apply Forall2_length in HF. rewrite HF.
    by destruct x, y, z.
  - destruct (slice_volume_run E data None None None d h s dr l)
      as (rs' & new' & lg' & Hr & HF' & _).
    unfold eval. rewrite Hr. cbn [fst]. by inversion HF'.
Qed.

(** The call of the notebook, on a volume of 200 x 240 x 180 voxels. *)
Example slice_volume_x_and_z :
  (λ r, (r.1, extent <$> omap (actor_at (heap r.2)) r.1))
    (Viz.slice_volume sample_env (NdArray (PName "t1w") (200, 240, 180))
       (Some 100) None (Some 60) (fresh_kernel ∅ 0)) =
  ([0%nat; 1%nat],
   [Some (Extent 0 199 0 239 60 60); Some (Extent 100 100 0 239 0 179)]).
Proof. vm_compute. reflexivity. Qed.

(** * Whole-notebook runs *)

(** ** Paths *)

Lemma string_app_inj_l (a x y : string) : a +:+ x = a +:+ y → x = y.
Proof. induction a as [|c a IH]; simpl; [done|]. intros [= H]. auto. Qed.

Lemma op_join_relative a b :
  startswith_sep b = false →
  op_join a b =
  a +:+ (if (if decide (a = "") then true else endswith_sep a) then "" else "/") +:+ b.
Proof.
  intros H. unfold op_join. rewrite H.
  by destruct (if decide (a = "") then true else endswith_sep a).
Qed.

Lemma op_join_inj a b1 b2 :
  startswith_sep b1 = false → startswith_sep b2 = false →
  op_join a b1 = op_join a b2 → b1 = b2.
Proof.
  intros H1 H2. rewrite !op_join_relative by done. intros H.
  apply string_app_inj_l in H. by apply string_app_inj_l in H.
Qed.



Ltac fig_neq :=
  let H := fresh in
  intros H; apply op_join_inj in H; [ discriminate H | reflexivity | reflexivity ].

(** ** Files *)

Lemma file_exists_write_ne p q c d : p ≠ q → file_exists p (write_file q c d) = file_exists p d.
Proof. intros H. unfold file_exists, write_file. by rewrite lookup_insert_ne. Qed.

Lemma file_exists_write_if_ne p q b c d :
  p ≠ q → file_exists p (write_if b q c d) = file_exists p d.
Proof. intros H. destruct b; [by apply file_exists_write_ne | done]. Qed.

Lemma file_exists_false p d : file_exists p d = false ↔ d !! p = None.
Proof.
  unfold file_exists. rewrite bool_decide_eq_false, <- eq_None_not_Some. done.
Qed.

Lemma file_exists_true p d : file_exists p d = true ↔ is_Some (d !! p).
Proof. unfold file_exists. by rewrite bool_decide_eq_true. Qed.

(** ** Guards, as [cbv] leaves them *)

Lemma guarded_record_cbv (b : bool) sc p size d h s dr l :
  (if (if b then false else true) then fury_window_record sc p size
   else (λ w : world, (tt, w))) (World d h s dr l) =
  (tt, World (write_if (negb b) p (snapshot h sc size) d) h s dr
         (log_if (negb b)
            (Ev window_record [PObj sc]
               [("out_path", PStr p); ("size", PTuple [PInt size.1; PInt size.2])]) l)).
Proof. destruct b; cbv [negb write_if log_if]; [by rewrite app_nil_r | reflexivity]. Qed.

Lemma guarded_save_cbv (b : bool) pf p d h s dr l :
  (if (if b then false else true) then pf_format_and_save_figure pf p
   else (λ w : world, (tt, w))) (World d h s dr l) =
  (tt, World (write_if (negb b) p
                (Montage (match h !! pf with
                          | Some (OPanelFigure _ panels) => panels
                          | _ => []
                          end)) d) h s dr
         (log_if (negb b) (Ev format_and_save_figure [PObj pf; PStr p] []) l)).
Proof. destruct b; cbv [negb write_if log_if]; [by rewrite app_nil_r | reflexivity]. Qed.

(** evaluate a cell on an explicit world, leaving alone what is symbolic *)
Ltac sym_cbv :=
  cbv -[file_exists read_file write_file write_all add_missing op_join set_property draw_values draw_state
        write_if log_if fury_window_record pf_format_and_save_figure
        Viz.fa_file Viz.arc_trk_file Viz.cst_trk_file Viz.t1w_file Viz.roi1_file
        Viz.roi2_file
        Z.sub Z.div Z.add Z.mul String.append
        afq_home hbn_study_path hbn_preproc_files hbn_afq_files nifti_shape
        new_actor_property template_files pipeline_files pipeline_draws montage_files
        seed_state rng_next shape0 shape1 shape2].

Ltac run_cell :=
  sym_cbv;
  lazymatch goal with
  | |- context [fury_window_record] =>
      rewrite ?file_exists_write_if_ne by fig_neq; rewrite guarded_record_cbv; sym_cbv
  | |- context [pf_format_and_save_figure] =>
      rewrite ?file_exists_write_if_ne by fig_neq; rewrite guarded_save_cbv; sym_cbv
  | |- _ => idtac
  end;
  reflexivity.

Ltac run_cells :=
  lazymatch goal with
  | |- @mret M _ _ _ _ = _ => reflexivity
  | |- (_ ≫= _) _ = _ => eapply run_bind; [ run_cells | cbv beta iota; run_cells ]
  | |- _ => run_cell
  end.

Lemma exec_eq {A} (m : M A) w a w' : m w = (a, w') → exec m w = w'.
Proof. unfold exec. by intros ->. Qed.

Lemma after_fetch_eq E d0 :
  after_fetch E d0 =
  add_missing (hbn_afq_files E ["NDARAA948VFH"])
    (add_missing (hbn_preproc_files E ["NDARAA948VFH"]) d0).
Proof. reflexivity. Qed.

Lemma viz_run_summary E d0 s0 :
  let d1 := after_fetch E d0 in
  let b1 := file_exists (figure_path E "arc_cst1.png") d1 in
  let b2 := file_exists (figure_path E "arc_cst2.png") d1 in
  let b3 := file_exists (figure_path E "arc_cst3.png") d1 in
  let b4 := file_exists (figure_path E "arc_cst4.png") d1 in
  let b5 := file_exists (figure_path E "arc_cst_fig.png") d1 in
  ∃ c1 c2 c3 c4 c5 hp lg,
    run (Viz.notebook E) d0 s0 =
      World (write_if (negb b5) (figure_path E "arc_cst_fig.png") c5
            (write_if (negb b4) (figure_path E "arc_cst4.png") c4
            (write_if (negb b3) (figure_path E "arc_cst3.png") c3
            (write_if (negb b2) (figure_path E "arc_cst2.png") c2
            (write_if (negb b1) (figure_path E "arc_cst1.png") c1 d1)))))
            hp s0 [] lg ∧
    ev_fn <$> lg = viz_calls b1 b2 b3 b4 b5 ∧
    saved_paths lg =
      saved_if b1 (figure_path E "arc_cst1.png") ++
      saved_if b2 (figure_path E "arc_cst2.png") ++
      saved_if b3 (figure_path E "arc_cst3.png") ++
      saved_if b4 (figure_path E "arc_cst4.png") ++
      saved_if b5 (figure_path E "arc_cst_fig.png") ∧
    existsb configures_parallelism lg = false.
Proof.
  cbv zeta. rewrite after_fetch_eq. unfold figure_path.
  do 7 eexists. split.
  - unfold run, fresh_kernel. apply (exec_eq _ _ tt).
    unfold Viz.notebook, Viz.first_figure, Viz.further_figures.
    run_cells.
  - (generalize (file_exists (op_join (op_join (afq_home E) "viz_results") "arc_cst1.png")
                (add_missing (hbn_afq_files E ["NDARAA948VFH"])
                   (add_missing (hbn_preproc_files E ["NDARAA948VFH"]) d0)));
    generalize (file_exists (op_join (op_join (afq_home E) "viz_results") "arc_cst2.png")
                (add_missing (hbn_afq_files E ["NDARAA948VFH"])
                   (add_missing (hbn_preproc_files E ["NDARAA948VFH"]) d0)));
    generalize (file_exists (op_join (op_join (afq_home E) "viz_results") "arc_cst3.png")
                (add_missing (hbn_afq_files E ["NDARAA948VFH"])
                   (add_missing (hbn_preproc_files E ["NDARAA948VFH"]) d0)));
    generalize (file_exists (op_join (op_join (afq_home E) "viz_results") "arc_cst4.png")
                (add_missing (hbn_afq_files E ["NDARAA948VFH"])
                   (add_missing (hbn_preproc_files E ["NDARAA948VFH"]) d0)));
    generalize (file_exists (op_join (op_join (afq_home E) "viz_results") "arc_cst_fig.png")
                (add_missing (hbn_afq_files E ["NDARAA948VFH"])
                   (add_missing (hbn_preproc_files E ["NDARAA948VFH"]) d0)))).
    (intros [] [] [] [] []; (split; [|split]); 
      cbv -[op_join afq_home hbn_study_path]; reflexivity).
Qed.

(** * The existence guards *)

Lemma elem_of_saved_if p b q : p ∈ saved_if b q ↔ b = false ∧ p = q.
Proof.
  destruct b; simpl.
  - rewrite elem_of_nil. split; [done | by intros [? _]].
  - rewrite list_elem_of_singleton. split; [done | by intros [_ ?]].
Qed.

Lemma elem_of_figure_paths E p :
  p ∈ figure_paths E ↔
  p = figure_path E "arc_cst1.png" ∨ p = figure_path E "arc_cst2.png" ∨
  p = figure_path E "arc_cst3.png" ∨ p = figure_path E "arc_cst4.png" ∨
  p = figure_path E "arc_cst_fig.png".
Proof.
  unfold figure_paths, figure_names. cbn [fmap list_fmap].
  rewrite !elem_of_cons, elem_of_nil. tauto.
Qed.

Lemma lookup_write_if_keep p q b c d :
  (p = q → b = false) → write_if b q c d !! p = d !! p.
Proof.
  intros H. destruct b; [|done]. unfold write_if, write_file.
  apply lookup_insert_ne. intros ->. by specialize (H eq_refl).
Qed.

Lemma figure_path_inj E n1 n2 :
  startswith_sep n1 = false → startswith_sep n2 = false →
  figure_path E n1 = figure_path E n2 → n1 = n2.
Proof. unfold figure_path. apply op_join_inj. Qed.

Ltac fig_contra :=
  match goal with
  | H : figure_path _ _ = figure_path _ _ |- _ =>
      apply figure_path_inj in H; [ discriminate H | reflexivity | reflexivity ]
  end.

Lemma calls_determined E d0 s0 : 
  let d1 := after_fetch E d0 in
  calls (run (Viz.notebook E) d0 s0) =
  viz_calls (file_exists (figure_path E "arc_cst1.png") d1)
            (file_exists (figure_path E "arc_cst2.png") d1)
            (file_exists (figure_path E "arc_cst3.png") d1)
            (file_exists (figure_path E "arc_cst4.png") d1)
            (file_exists (figure_path E "arc_cst_fig.png") d1).
Proof.
  destruct (viz_run_summary E d0 s0) as (c1 & c2 & c3 & c4 & c5 & hp & lg & Hrun & Hc & _).
  cbv zeta. unfold calls. rewrite Hrun. exact Hc.
Qed.

Lemma file_exists_iff p d d' :
  (is_Some (d' !! p) ↔ is_Some (d !! p)) → file_exists p d' = file_exists p d.
Proof. intros H. unfold file_exists. by apply bool_decide_ext. Qed.

Lemma slf_log_fixed E : ∃ lg, ∀ d0 s0, log (run (Slf.notebook E) d0 s0) = lg.
Proof.
  eexists. intros d0 s0. unfold run, fresh_kernel.
  sym_cbv. reflexivity.
Qed.

Lemma reco_log_fixed E : ∃ lg, ∀ d0 s0, log (run (Reco.notebook E) d0 s0) = lg.
Proof.
  eexists. intros d0 s0. unfold run, fresh_kernel.
  sym_cbv. reflexivity.
Qed.

Lemma NoDup_saved_if (b1 b2 b3 b4 b5 : bool) (p1 p2 p3 p4 p5 : string) :
  NoDup [p1; p2; p3; p4; p5] →
  NoDup (saved_if b1 p1 ++ saved_if b2 p2 ++ saved_if b3 p3 ++ saved_if b4 p4 ++
         saved_if b5 p5).
Proof.
  intros H. apply (sublist_NoDup _ _ H).
  destruct b1, b2, b3, b4, b5; cbn [saved_if app];
    repeat first [ apply sublist_nil | apply sublist_skip | apply sublist_cons ].
Qed.

Lemma NoDup_figure_paths E : NoDup (figure_paths E).
Proof.
  unfold figure_paths, figure_names. cbn [fmap list_fmap].
  repeat (constructor;
          [ rewrite ?not_elem_of_cons; repeat split;
            first [ apply not_elem_of_nil | (intros H; fig_contra) ] | ]).
  constructor.
Qed.

Ltac pick_disjunct Hn :=
  first [ (split; [exact Hn | reflexivity])
        | (left; split; [exact Hn | reflexivity])
        | (right; pick_disjunct Hn) ].

(** C1. In every run of the visualisation notebook, each of the five figures
    (arc_cst1.png .. arc_cst4.png and arc_cst_fig.png) is rendered and saved
    exactly when its file does not exist: with [d1] the disk once the data are
    fetched (nothing but the guarded calls writes from there on), the saving
    call for [p] is in the log iff [p] is absent from [d1], and a file that
    exists keeps its content; no figure is saved twice.  These existence
    checks are the only way the outside world steers the notebooks: the
    sequence of library calls of the visualisation notebook is the same for
    any two disks on which the same figures exist, and the logs of the other
    two notebooks do not depend on the disk at all. *)
Theorem figures_saved_iff_absent E d0 s0 :
  let w := run (Viz.notebook E) d0 s0 in
  let d1 := after_fetch E d0 in
  (∀ p, p ∈ figure_paths E →
     (p ∈ saved_paths (log w) ↔ d1 !! p = None) ∧
     (∀ c, d1 !! p = Some c → disk w !! p = Some c)) ∧
  NoDup (saved_paths (log w)) ∧
  (∀ d0' s0',
     (∀ p, p ∈ figure_paths E → is_Some (after_fetch E d0' !! p) ↔ is_Some (d1 !! p)) →
     calls (run (Viz.notebook E) d0' s0') = calls w) ∧
  (∀ d0' s0', log (run (Slf.notebook E) d0' s0') = log (run (Slf.notebook E) d0 s0)) ∧
  (∀ d0' s0', log (run (Reco.notebook E) d0' s0') = log (run (Reco.notebook E) d0 s0)).
Proof.
  cbv zeta. split; [|split; [|split; [|split]]].
  - destruct (viz_run_summary E d0 s0)
      as (c1 & c2 & c3 & c4 & c5 & hp & lg & Hrun & _ & Hs & _).
    cbv zeta in Hrun, Hs. rewrite Hrun. cbn [log disk]. rewrite Hs.
    intros p Hp. apply elem_of_figure_paths in Hp.
    rewrite !elem_of_app, !elem_of_saved_if, !file_exists_false.
    split.
    + destruct Hp as [->|[->|[->|[->| ->]]]]; (split;
        [ intros [[Hb H]|[[Hb H]|[[Hb H]|[[Hb H]|[Hb H]]]]];
            first [fig_contra | exact Hb]
        | intros Hn; pick_disjunct Hn ]).
    + intros c Hc.
      assert (Hb : file_exists p (after_fetch E d0) = true)
        by (apply file_exists_true; eauto).
      destruct Hp as [->|[->|[->|[->| ->]]]];
        do 5 (rewrite lookup_write_if_keep
                by (intros Heq; first [fig_contra | by rewrite Hb]));
        exact Hc.
  - destruct (viz_run_summary E d0 s0)
      as (c1 & c2 & c3 & c4 & c5 & hp & lg & Hrun & _ & Hs & _).
    cbv zeta in Hrun, Hs. rewrite Hrun. cbn [log]. rewrite Hs.
    apply NoDup_saved_if, (NoDup_figure_paths E).
  - intros d0' s0' Hbits. rewrite !calls_determined. cbv zeta.
    f_equal; apply file_exists_iff, Hbits, elem_of_figure_paths; tauto.
  - destruct (slf_log_fixed E) as [lg H]. intros. by rewrite !H.
  - destruct (reco_log_fixed E) as [lg H]. intros. by rewrite !H.
Qed.

Example all_figures_saved_on_empty_disk :
  saved_paths (log (run (Viz.notebook sample_env) ∅ 0)) = figure_paths sample_env.
Proof. vm_compute. reflexivity. Qed.

Example existing_figure_is_skipped :
  saved_paths (log (run (Viz.notebook sample_env)
                      {[ figure_path sample_env "arc_cst2.png" := Montage [] ]} 0)) =
    figure_path sample_env <$> ["arc_cst1.png"; "arc_cst3.png"; "arc_cst4.png";
                                "arc_cst_fig.png"] ∧
  disk (run (Viz.notebook sample_env)
          {[ figure_path sample_env "arc_cst2.png" := Montage [] ]} 0)
    !! figure_path sample_env "arc_cst2.png" = Some (Montage []).
Proof. split; vm_compute; reflexivity. Qed.

(** * The other two notebooks *)

Lemma draw_values_add E n m s :
  draw_values E (n + m) s = draw_values E n s ++ draw_values E m (draw_state E n s).
Proof.
  revert s. induction n as [|n IH]; intros s; [done|].
  cbn [Nat.add draw_values draw_state app]. by rewrite IH.
Qed.

Lemma slf_run_summary E d0 :
  ∃ cfg args c1 c2 c3 D1 D3 hp rng dr lg,
    (∀ s0, run (Slf.notebook E) d0 s0 =
       World (write_all (pipeline_files E cfg "all_bundles_figure" D3) c3
             (write_all (montage_files E cfg args) c2
             (write_all (pipeline_files E cfg "profiles" D1) c1
             (add_missing (template_files E)
             (add_missing (hbn_preproc_files E ["NDARAA948VFH"]) d0)))))
             hp rng dr lg) ∧
    ev_fn <$> lg = slf_calls ∧
    head lg = Some (Ev np_random_seed [PInt 1234] []) ∧
    List.filter configures_parallelism lg = [Ev GroupAFQ [] cfg] ∧
    kwarg "segmentation_params" cfg =
      Some (PDict [("parallel_segmentation", PDict [("engine", PStr "serial")])]) ∧
    (∃ n, dr = draw_values E n (seed_state E 1234)).
Proof.
  do 11 eexists. split; [|split; [|split; [|split; [|split]]]].
  - intros s0. unfold run, fresh_kernel. sym_cbv. reflexivity.
  - reflexivity.
  - reflexivity.
  - cbv -[op_join afq_home hbn_study_path String.append]. reflexivity.
  - reflexivity.
  - eexists. cbn [app]. symmetry. apply draw_values_add.
Qed.

Lemma reco_run_summary E d0 :
  ∃ cfg hp lg,
    (∀ s0, ∃ c1 c3 D3 rng dr, run (Reco.notebook E) d0 s0 =
       World (write_all (pipeline_files E cfg "all_bundles_figure" D3) c3
             (write_all (pipeline_files E cfg "profiles" d0) c1 d0))
             hp rng dr lg) ∧
    ev_fn <$> lg = reco_calls ∧
    existsb configures_parallelism lg = false ∧
    kwarg "bids_path" cfg = Some (PStr (op_join (afq_home E) "stanford_hardi")) ∧
    Ev GroupAFQ [] cfg ∈ lg.
Proof.
  do 3 eexists. split; [|split; [|split; [|split]]].
  - intros s0. do 5 eexists. unfold run, fresh_kernel. sym_cbv. reflexivity.
  - reflexivity.
  - reflexivity.
  - reflexivity.
  - apply list_elem_of_lookup. by exists 1%nat.
Qed.



Lemma viz_calls_all (P : list api → Prop) :
  (∀ b1 b2 b3 b4 b5, P (viz_calls b1 b2 b3 b4 b5)) →
  ∀ E d0 s0, P (calls (run (Viz.notebook E) d0 s0)).
Proof. intros H E d0 s0. rewrite calls_determined. apply H. Qed.

Lemma slf_calls_eq E d0 s0 : calls (run (Slf.notebook E) d0 s0) = slf_calls.
Proof.
  destruct (slf_run_summary E d0)
    as (cfg & args & c1 & c2 & c3 & D1 & D3 & hp & rng & dr & lg & Hrun & Hc & _).
  unfold calls. by rewrite Hrun.
Qed.

Lemma reco_calls_eq E d0 s0 : calls (run (Reco.notebook E) d0 s0) = reco_calls.
Proof.
  destruct (reco_run_summary E d0) as (cfg & hp & lg & Hrun & Hc & _).
  destruct (Hrun s0) as (c1 & c3 & D3 & rng & dr & ->). exact Hc.
Qed.


(** * C2: fetching before use *)

(** C2, as stated, fails: the RecoBundles notebook calls no fetcher at all,
    and its first library call already belongs to the analysis. *)
Lemma reco_notebook_never_fetches :
  fetch_first (calls (run (Reco.notebook sample_env) ∅ 0)) = false ∧
  existsb is_fetcher (calls (run (Reco.notebook sample_env) ∅ 0)) = false ∧
  GroupAFQ ∈ calls (run (Reco.notebook sample_env) ∅ 0).
Proof. vm_compute. split; [done|split; [done|]]. apply list_elem_of_lookup. by exists 1%nat. Qed.

(** C2, amended. In every run the visualisation notebook and the SLF notebook
    call a fetcher before any analysis or visualisation call; the RecoBundles
    notebook calls no fetcher and hands GroupAFQ the dataset it expects under
    afq_home/stanford_hardi. *)
Theorem fetch_precedes_use_except_recobundles E d0 s0 :
  fetch_first (calls (run (Viz.notebook E) d0 s0)) = true ∧
  fetch_first (calls (run (Slf.notebook E) d0 s0)) = true ∧
  existsb is_fetcher (calls (run (Reco.notebook E) d0 s0)) = false ∧
  (∃ cfg, Ev GroupAFQ [] cfg ∈ log (run (Reco.notebook E) d0 s0) ∧
          kwarg "bids_path" cfg = Some (PStr (op_join (afq_home E) "stanford_hardi"))).
Proof.
  split; [|split; [|split]].
  - apply viz_calls_all. by intros [] [] [] [] [].
  - by rewrite slf_calls_eq.
  - by rewrite reco_calls_eq.
  - destruct (reco_run_summary E d0) as (cfg & hp & lg & Hrun & _ & _ & Hb & Hin).
    destruct (Hrun s0) as (c1 & c3 & D3 & rng & dr & ->). by exists cfg.
Qed.

(** * C3: what a run persists *)



(** * C5: order of the stages *)



(** * C7: parallelism options *)



(** * C10: the seed *)


(** Without the seed the draws follow the initial state: the RecoBundles
    notebook on the sample environment. *)
Example reco_draws_depend_on_initial_state :
  drawn (run (Reco.notebook sample_env) ∅ 0) ≠ drawn (run (Reco.notebook sample_env) ∅ 1).
Proof. vm_compute. discriminate. Qed.

Example slf_draws_on_sample :
  drawn (run (Slf.notebook sample_env) ∅ 0) = drawn (run (Slf.notebook sample_env) ∅ 77) ∧
  length (drawn (run (Slf.notebook sample_env) ∅ 0)) = 3%nat.
Proof. split; vm_compute; reflexivity. Qed.

(** * C4: which objects a notebook updates in place *)

Section Frame.
Context (E : Env).















End Frame.









(** * Further properties of the helper functions and cells *)

(** ** Primitives on an explicit world *)

Lemma nibabel_load_run p d h s dr l :
  nibabel_load p (World d h s dr l) =
  (length h, World d (h ++ [ONifti (PStr p)]) s dr (l ++ [Ev nib_load [PStr p] []])).
Proof. reflexivity. Qed.

Lemma get_fdata_run E img d h s dr l :
  img_get_fdata E img (World d h s dr l) =
  (NdArray (PRet get_fdata [PObj img] []) (nifti_shape E (image_src (h !! img))),
   World d h s dr (l ++ [Ev get_fdata [PObj img] []])).
Proof. reflexivity. Qed.

Lemma method_run f self args kw upd d h s dr l :
  method f self args kw upd (World d h s dr l) =
  (tt, World d (alter upd self h) s dr (l ++ [Ev f (PObj self :: args) kw])).
Proof. reflexivity. Qed.

Lemma call_run f args kw d h s dr l :
  call f args kw (World d h s dr l) =
  (PRet f args kw, World d h s dr (l ++ [Ev f args kw])).
Proof. reflexivity. Qed.

Lemma streamlines_run sft d h s dr l :
  sft_streamlines sft (World d h s dr l) =
  (match h !! sft with
   | Some (OTractogram trk _ sp) => PStreamlines trk sp
   | _ => PAttr (PObj sft) "streamlines"
   end, World d h s dr l).
Proof. reflexivity. Qed.



(** ** lines_as_tubes, called twice *)

(** X1. Two calls of [lines_as_tubes] give two different actors, and the
    second call leaves the first actor as the first call made it: each actor
    keeps the line width and the streamlines it was made with (the notebook
    relies on it for [arc_actor] and [cst_actor], and for the thin bundles and
    thick core bundles of the third figure). *)
Theorem tube_actors_are_independent E sl1 lw1 kw1 sl2 lw2 kw2 w :
  let r1 := Viz.lines_as_tubes E sl1 lw1 kw1 w in
  let r2 := Viz.lines_as_tubes E sl2 lw2 kw2 r1.2 in
  r1.1 ≠ r2.1 ∧
  heap r2.2 !! r1.1 = heap r1.2 !! r1.1 ∧
  (∃ a1 a2, heap r2.2 !! r1.1 = Some (OActor a1) ∧ heap r2.2 !! r2.1 = Some (OActor a2) ∧
            property a1 !! "LineWidth" = Some lw1 ∧ property a2 !! "LineWidth" = Some lw2 ∧
            made_by a1 = Ev actor_line [sl1] kw1 ∧ made_by a2 = Ev actor_line [sl2] kw2).
Proof.
  destruct w as [d h s dr l]. cbv zeta.
  rewrite lines_as_tubes_run. cbn [fst snd]. rewrite lines_as_tubes_run. cbn [fst snd heap].
  rewrite length_app. cbn [length]. split; [lia|].
  rewrite <- app_assoc. cbn [app].
  rewrite !heap_lookup_new0. cbn [lookup list_lookup].
  split; [done|]. eexists _, _. split; [done|].
  split.
  { rewrite heap_lookup_new. reflexivity. }
  cbn [set_property property made_by]. rewrite !lookup_insert_eq. done.
Qed.

(** ** slice_volume and its call *)

(** X2. Whatever x, y and z are, [slice_volume] calls [actor.slicer(data)]
    exactly once and allocates that base slicer even when z is None, in which
    case it is not among the returned actors; every slicer for y and x is a
    copy of it followed by its own [display_extent].  The objects that
    existed before the call and the files on disk are left as they were. *)
Theorem slice_volume_allocates_base_slicer E data x y z w :
  let res := Viz.slice_volume E data x y z w in
  (∃ new, heap res.2 = heap w ++ new ∧
          length new = S (length (filter is_Some [y; x]))) ∧
  disk res.2 = disk w ∧
  ev_fn <$> log res.2 =
    (ev_fn <$> log w) ++ actor_slicer :: when_given z [display_extent] ++
      when_given y [slicer_copy; display_extent] ++
      when_given x [slicer_copy; display_extent] ∧
  (z = None → length (heap w) ∉ res.1).
Proof.
  destruct w as [d h s dr l]. cbv zeta.
  destruct x as [x|], y as [y|], z as [z|].
  all: match goal with
       | |- context [Viz.slice_volume ?E ?da ?x ?y ?z ?w] =>
           let r := fresh "r" in let H := fresh "H" in
           evar (r : (list nat * world)%type);
           assert (H : Viz.slice_volume E da x y z w = r)
             by (subst r; unfold Viz.slice_volume; run_steps);
           rewrite H; subst r; clear H
       end.
  all: cbv [mret M_ret]; cbn [fst snd heap disk log when_given app].
  all: split; [eexists; split; [reflexivity|reflexivity] |].
  all: split; [reflexivity|].
  all: split; [rewrite ?fmap_app, <- ?app_assoc; reflexivity|].
  all: intros Hz; try discriminate Hz.
  all: rewrite ?not_elem_of_cons; repeat split; try lia; apply not_elem_of_nil.
Qed.

(** X3. The call of the notebook, [slice_volume(t1w, x=t1w.shape[0] // 2,
    z=t1w.shape[-1] // 3)]: for every volume whose first and last dimensions
    are positive, both selected slices lie inside the volume, and the result
    is two distinct slicers, the axial one (z) first and the sagittal one (x)
    second; no slice along y is made. *)
Theorem cell_slicers_within_volume E t1w w :
  0 < shape0 t1w → 0 < shape2 t1w →
  let res := Viz.cell_slicers E t1w w in
  let x := shape0 t1w `div` 2 in
  let z := shape2 t1w `div` 3 in
  0 ≤ x ≤ shape0 t1w - 1 ∧ 0 ≤ z ≤ shape2 t1w - 1 ∧
  ∃ rz rx, res.1 = [rz; rx] ∧ rz ≠ rx ∧
    slicer_showing res.2 t1w rz (Extent 0 (shape0 t1w - 1) 0 (shape1 t1w - 1) z z) ∧
    slicer_showing res.2 t1w rx (Extent x x 0 (shape1 t1w - 1) 0 (shape2 t1w - 1)).
Proof.
  intros H0 H2. cbv zeta. split; [|split].
  - split; [apply Z.div_pos; lia|].
    assert (shape0 t1w `div` 2 < shape0 t1w) by (apply Z.div_lt; lia). lia.
  - split; [apply Z.div_pos; lia|].
    assert (shape2 t1w `div` 3 < shape2 t1w) by (apply Z.div_lt; lia). lia.
  - destruct w as [d h s dr l]. unfold Viz.cell_slicers.
    destruct (slice_volume_run E t1w (Some (shape0 t1w `div` 2)) None
                (Some (shape2 t1w `div` 3)) d h s dr l) as (rs & new & lg & -> & HF & HN).
    cbn [fst snd]. unfold claimed_extents in HF.
    cbn [omap list_omap fmap option_fmap option_map id] in HF.
    apply Forall2_cons_inv_r in HF as (rz & rs' & (az & kz & -> & Hz & Hmz & Hez) & HF & ->).
    apply Forall2_cons_inv_r in HF as (rx & rs'' & (ax & kx & -> & Hx & Hmx & Hex) & HF & ->).
    apply Forall2_nil_inv_r in HF as ->.
    eexists _, _. split; [done|]. split.
    { apply NoDup_cons in HN as [HN _]. by rewrite not_elem_of_cons in HN; destruct HN. }
    unfold slicer_showing, heap. rewrite !heap_lookup_new. split; by eexists.
Qed.

Lemma cell_slicers_within_sample_volume :
  let t1w := NdArray (PName "t1w") (200, 240, 180) in
  (0 < shape0 t1w ∧ 0 < shape2 t1w) ∧
  let res := Viz.cell_slicers sample_env t1w (fresh_kernel ∅ 0) in
  0 ≤ 100 ≤ 199 ∧ 0 ≤ 60 ≤ 179 ∧
  ∃ rz rx, res.1 = [rz; rx] ∧ rz ≠ rx ∧
    slicer_showing res.2 t1w rz (Extent 0 199 0 239 60 60) ∧
    slicer_showing res.2 t1w rx (Extent 100 100 0 239 0 179).
Proof.
  split; [split; reflexivity|].
  apply (cell_slicers_within_volume sample_env (NdArray (PName "t1w") (200, 240, 180))
           (fresh_kernel ∅ 0)); reflexivity.
Defined.

(** ** The scene of the first figure *)




(** ** Transforming into the T1w frame *)

Lemma lookup_set_space (h : list obj) r r' trk ref sp sp' :
  h !! r = Some (OTractogram trk ref sp) →
  ∃ sp'', alter (set_space sp') r' h !! r = Some (OTractogram trk ref sp'') ∧
          (r' = r → sp'' = sp').
Proof.
  intros H. destruct (decide (r' = r)) as [->|Hne].
  - exists sp'. by rewrite list_lookup_alter_eq, H.
  - exists sp. by rewrite list_lookup_alter_ne.
Qed.

(** X5. The cell that transforms the bundles into the T1w frame does not
    depend on the space the tractograms were left in: whenever [sft_arc] and
    [sft_cst] are tractograms, in any space (a later cell calls [to_vox] on
    them, so this is the case when the cell is run again), both
    [transform_streamlines] calls receive the streamlines in RASMM together
    with the inverse of the affine of the T1w image the cell has just loaded,
    and both tractograms are in RASMM afterwards. *)
Theorem cell_transform_reads_world_coordinates E deriv_path sft_arc sft_cst w
    trk_arc sp_arc trk_cst sp_cst :
  tractogram_at w sft_arc = Some (trk_arc, sp_arc) →
  tractogram_at w sft_cst = Some (trk_cst, sp_cst) →
  let res := Viz.cell_transform E deriv_path sft_arc sft_cst w in
  let inv := PRet np_linalg_inv [img_affine (length (heap w))] [] in
  res.1.1.2 = PRet transform_streamlines [PStreamlines trk_arc RASMM; inv] [] ∧
  res.1.2 = PRet transform_streamlines [PStreamlines trk_cst RASMM; inv] [] ∧
  tractogram_at res.2 sft_arc = Some (trk_arc, RASMM) ∧
  tractogram_at res.2 sft_cst = Some (trk_cst, RASMM).
Proof.
  destruct w as [d h s dr l]. unfold tractogram_at. cbn [heap]. intros Ha Hc. cbv zeta.
  destruct (h !! sft_arc) as [[| ta ra spa | | | |]|] eqn:Ea; try discriminate Ha.
  destruct (h !! sft_cst) as [[| tc rc spc | | | |]|] eqn:Ec; try discriminate Hc.
  injection Ha as -> ->. injection Hc as -> ->.
  assert (Hla : (h ++ [ONifti (PStr (op_join deriv_path Viz.t1w_file))]) !! sft_arc
                = Some (OTractogram trk_arc ra sp_arc)).
  { rewrite lookup_app_l; [done|]. by apply lookup_lt_Some in Ea. }
  assert (Hlc : (h ++ [ONifti (PStr (op_join deriv_path Viz.t1w_file))]) !! sft_cst
                = Some (OTractogram trk_cst rc sp_cst)).
  { rewrite lookup_app_l; [done|]. by apply lookup_lt_Some in Ec. }
  set (h1 := h ++ _) in *.
  assert (Ha2 : alter (set_space RASMM) sft_cst (alter (set_space RASMM) sft_arc h1) !! sft_arc
                = Some (OTractogram trk_arc ra RASMM)).
  { destruct (lookup_set_space h1 sft_arc sft_arc _ _ _ RASMM Hla) as (x & Hx & Hx').
    rewrite (Hx' eq_refl) in Hx.
    destruct (lookup_set_space _ sft_arc sft_cst _ _ _ RASMM Hx) as (y & Hy & Hy').
    rewrite Hy. destruct (decide (sft_cst = sft_arc)) as [e|ne].
    - by rewrite (Hy' e).
    - rewrite list_lookup_alter_ne in Hy by done. congruence. }
  assert (Hc2 : alter (set_space RASMM) sft_cst (alter (set_space RASMM) sft_arc h1) !! sft_cst
                = Some (OTractogram trk_cst rc RASMM)).
  { destruct (lookup_set_space h1 sft_cst sft_arc _ _ _ RASMM Hlc) as (x & Hx & _).
    by rewrite list_lookup_alter_eq, Hx. }
  unfold Viz.cell_transform.
  erewrite run_bind; [| apply nibabel_load_run |].
  2:{ cbv beta. eapply run_bind; [apply get_fdata_run|].
      eapply run_bind; [apply method_run|].
      eapply run_bind; [apply method_run|].
      eapply run_bind; [apply streamlines_run|].
      fold h1. rewrite Ha2.
      eapply run_bind; [apply call_run|].
      eapply run_bind; [apply call_run|].
      eapply run_bind; [apply streamlines_run|].
      rewrite Hc2.
      eapply run_bind; [apply call_run|].
      eapply run_bind; [apply call_run|].
      reflexivity. }
  cbv [mret M_ret]. cbn [fst snd heap]. rewrite Ha2, Hc2. done.
Qed.

Lemma cell_transform_after_to_vox :
  (tractogram_at loaded_kernel 1 = Some ("arc.trk", VOX) ∧
   tractogram_at loaded_kernel 2 = Some ("cst.trk", VOXMM)) ∧
  let res := Viz.cell_transform sample_env "derivatives" 1 2 loaded_kernel in
  let inv := PRet np_linalg_inv [img_affine (length (heap loaded_kernel))] [] in
  res.1.1.2 = PRet transform_streamlines [PStreamlines "arc.trk" RASMM; inv] [] ∧
  res.1.2 = PRet transform_streamlines [PStreamlines "cst.trk" RASMM; inv] [] ∧
  tractogram_at res.2 1 = Some ("arc.trk", RASMM) ∧
  tractogram_at res.2 2 = Some ("cst.trk", RASMM).
Proof.
  split; [split; reflexivity|].
  apply (cell_transform_reads_world_coordinates sample_env "derivatives" 1 2 loaded_kernel
           "arc.trk" VOX "cst.trk" VOXMM); reflexivity.
Defined.

(** * Further properties of whole runs *)

(** ** The run of the visualisation notebook, in more detail *)

Lemma viz_run_details E d0 s0 :
  let d1 := after_fetch E d0 in
  let b1 := file_exists (figure_path E "arc_cst1.png") d1 in
  let b2 := file_exists (figure_path E "arc_cst2.png") d1 in
  let b3 := file_exists (figure_path E "arc_cst3.png") d1 in
  let b4 := file_exists (figure_path E "arc_cst4.png") d1 in
  let b5 := file_exists (figure_path E "arc_cst_fig.png") d1 in
  ∃ c1 c2 c3 c4 hp lg,
    let d4 := write_if (negb b4) (figure_path E "arc_cst4.png") c4
             (write_if (negb b3) (figure_path E "arc_cst3.png") c3
             (write_if (negb b2) (figure_path E "arc_cst2.png") c2
             (write_if (negb b1) (figure_path E "arc_cst1.png") c1 d1))) in
    run (Viz.notebook E) d0 s0 =
      World (write_if (negb b5) (figure_path E "arc_cst_fig.png")
               (Montage (montage_panels E d4)) d4) hp s0 [] lg ∧
    last hp = Some (OPanelFigure [3; 2; 6; 9] (montage_panels E d4)) ∧
    shown <$> [c1; c2; c3; c4] =
      [ ([actor_line; actor_line; actor_slicer; actor_slicer], Some notebook_camera);
        ([actor_line; actor_line; actor_slicer; actor_slicer], Some notebook_camera);
        ([actor_line; actor_line; actor_slicer; actor_slicer; actor_line; actor_line],
         Some notebook_camera);
        ([actor_line; actor_line; actor_slicer; actor_slicer;
          actor_contour_from_roi; actor_contour_from_roi], Some notebook_camera) ] ∧
    loaded_paths lg = input_paths E ∧
    streamline_uses lg =
      [ (transform_streamlines,
         Some (op_join (op_join (afq_dir E) "bundles") Viz.arc_trk_file, RASMM), []);
        (transform_streamlines,
         Some (op_join (op_join (afq_dir E) "bundles") Viz.cst_trk_file, RASMM), []);
        (afq_profile,
         Some (op_join (op_join (afq_dir E) "bundles") Viz.arc_trk_file, VOX),
         [("affine", PRet np_eye [PInt 4] [])]);
        (afq_profile,
         Some (op_join (op_join (afq_dir E) "bundles") Viz.cst_trk_file, VOX),
         [("affine", PRet np_eye [PInt 4] [])]) ].
Proof.
  cbv zeta. rewrite after_fetch_eq. unfold figure_path, montage_panels, figure_path.
  do 6 eexists. split.
  - unfold run, fresh_kernel. apply (exec_eq _ _ tt).
    unfold Viz.notebook, Viz.first_figure, Viz.further_figures.
    run_cells.
  - split; [sym_cbv; reflexivity|].
    split; [sym_cbv; reflexivity|].
    (generalize (file_exists (op_join (op_join (afq_home E) "viz_results") "arc_cst1.png")
                (add_missing (hbn_afq_files E ["NDARAA948VFH"])
                   (add_missing (hbn_preproc_files E ["NDARAA948VFH"]) d0)));
    generalize (file_exists (op_join (op_join (afq_home E) "viz_results") "arc_cst2.png")
                (add_missing (hbn_afq_files E ["NDARAA948VFH"])
                   (add_missing (hbn_preproc_files E ["NDARAA948VFH"]) d0)));
    generalize (file_exists (op_join (op_join (afq_home E) "viz_results") "arc_cst3.png")
                (add_missing (hbn_afq_files E ["NDARAA948VFH"])
                   (add_missing (hbn_preproc_files E ["NDARAA948VFH"]) d0)));
    generalize (file_exists (op_join (op_join (afq_home E) "viz_results") "arc_cst4.png")
                (add_missing (hbn_afq_files E ["NDARAA948VFH"])
                   (add_missing (hbn_preproc_files E ["NDARAA948VFH"]) d0)));
    generalize (file_exists (op_join (op_join (afq_home E) "viz_results") "arc_cst_fig.png")
                (add_missing (hbn_afq_files E ["NDARAA948VFH"])
                   (add_missing (hbn_preproc_files E ["NDARAA948VFH"]) d0)))).
    (intros [] [] [] [] []; split;
      cbv -[op_join afq_home hbn_study_path Viz.fa_file Viz.arc_trk_file Viz.cst_trk_file
            Viz.t1w_file Viz.roi1_file Viz.roi2_file]; reflexivity).
Qed.

(** ** The disk the five guarded writes leave *)

Lemma lookup_write_if_guard p c (d d1 : gmap string content) :
  d !! p = d1 !! p →
  write_if (negb (file_exists p d1)) p c d !! p = after_guard p c d1.
Proof.
  intros H. unfold after_guard. destruct (file_exists p d1); cbn [negb write_if]; [done|].
  unfold write_file. by rewrite lookup_insert_eq.
Qed.

Lemma after_guard_is_Some p c d1 : is_Some (after_guard p c d1).
Proof.
  unfold after_guard. destruct (file_exists p d1) eqn:H; [|eauto].
  by apply file_exists_true.
Qed.


Lemma lookup_after_writes (p1 p2 p3 p4 p5 : string) c1 c2 c3 c4 c5
    (d1 : gmap string content) :
  NoDup [p1; p2; p3; p4; p5] →
  let d4 := write_if (negb (file_exists p4 d1)) p4 c4
           (write_if (negb (file_exists p3 d1)) p3 c3
           (write_if (negb (file_exists p2 d1)) p2 c2
           (write_if (negb (file_exists p1 d1)) p1 c1 d1))) in
  let d := write_if (negb (file_exists p5 d1)) p5 c5 d4 in
  (d !! p1 = after_guard p1 c1 d1 ∧ d !! p2 = after_guard p2 c2 d1 ∧
   d !! p3 = after_guard p3 c3 d1 ∧ d !! p4 = after_guard p4 c4 d1 ∧
   d !! p5 = after_guard p5 c5 d1) ∧
  (d4 !! p1 = d !! p1 ∧ d4 !! p2 = d !! p2 ∧ d4 !! p3 = d !! p3 ∧ d4 !! p4 = d !! p4).
Proof.
  intros Hnd. cbv zeta.
  apply NoDup_cons in Hnd as [N1 Hnd]. apply NoDup_cons in Hnd as [N2 Hnd].
  apply NoDup_cons in Hnd as [N3 Hnd]. apply NoDup_cons in Hnd as [N4 _].
  repeat match goal with H : _ ∉ _ :: _ |- _ => apply not_elem_of_cons in H as [? ?] end.
  assert (K : ∀ (p q : string) b c (d : gmap string content),
            p ≠ q → write_if b q c d !! p = d !! p).
  { intros. by apply lookup_write_if_keep. }
  split.
  - repeat split.
    + rewrite !K by congruence. by apply lookup_write_if_guard.
    + rewrite 3!K by congruence. apply lookup_write_if_guard. by rewrite !K by congruence.
    + rewrite 2!K by congruence. apply lookup_write_if_guard. by rewrite !K by congruence.
    + rewrite K by congruence. apply lookup_write_if_guard. by rewrite !K by congruence.
    + apply lookup_write_if_guard. by rewrite !K by congruence.
  - repeat split; symmetry; apply K; congruence.
Qed.

Lemma panels_after_writes (p1 p2 p3 p4 p5 : string) c1 c2 c3 c4
    (d1 : gmap string content) :
  NoDup [p1; p2; p3; p4; p5] →
  let d4 := write_if (negb (file_exists p4 d1)) p4 c4
           (write_if (negb (file_exists p3 d1)) p3 c3
           (write_if (negb (file_exists p2 d1)) p2 c2
           (write_if (negb (file_exists p1 d1)) p1 c1 d1))) in
  ∃ i1 i2 i3 i4,
    (d4 !! p1 = Some i1 ∧ d4 !! p2 = Some i2 ∧ d4 !! p3 = Some i3 ∧ d4 !! p4 = Some i4) ∧
    ∀ c5, let d := write_if (negb (file_exists p5 d1)) p5 c5 d4 in
      d !! p1 = Some i1 ∧ d !! p2 = Some i2 ∧ d !! p3 = Some i3 ∧ d !! p4 = Some i4 ∧
      d !! p5 = after_guard p5 c5 d1.
Proof.
  intros Hnd. cbv zeta.
  destruct (after_guard_is_Some p1 c1 d1) as [i1 G1].
  destruct (after_guard_is_Some p2 c2 d1) as [i2 G2].
  destruct (after_guard_is_Some p3 c3 d1) as [i3 G3].
  destruct (after_guard_is_Some p4 c4 d1) as [i4 G4].
  exists i1, i2, i3, i4.
  assert (H : ∀ c5, _) by (exact (λ c5, lookup_after_writes p1 p2 p3 p4 p5 c1 c2 c3 c4 c5 d1 Hnd)).
  cbv zeta in H. split.
  - destruct (H c1) as [(H1 & H2 & H3 & H4 & _) (K1 & K2 & K3 & K4)].
    rewrite K1, K2, K3, K4, H1, H2, H3, H4. done.
  - intros c5. destruct (H c5) as [(H1 & H2 & H3 & H4 & H5) _].
    rewrite H1, H2, H3, H4, H5. done.
Qed.

(** ** Coordinate spaces *)

(** X6. In every run of the visualisation notebook the streamlines are in
    the space the receiving call works in: both [transform_streamlines] calls
    read them in RASMM (after [to_rasmm]), and both [afq_profile] calls read
    them in voxel space (after [to_vox]) with the identity as affine, so that
    they index the FA array directly; ARC comes before CST each time. *)
Theorem streamlines_read_in_call_space E d0 s0 :
  streamline_uses (log (run (Viz.notebook E) d0 s0)) =
    [ (transform_streamlines,
       Some (op_join (op_join (afq_dir E) "bundles") Viz.arc_trk_file, RASMM), []);
      (transform_streamlines,
       Some (op_join (op_join (afq_dir E) "bundles") Viz.cst_trk_file, RASMM), []);
      (afq_profile,
       Some (op_join (op_join (afq_dir E) "bundles") Viz.arc_trk_file, VOX),
       [("affine", PRet np_eye [PInt 4] [])]);
      (afq_profile,
       Some (op_join (op_join (afq_dir E) "bundles") Viz.cst_trk_file, VOX),
       [("affine", PRet np_eye [PInt 4] [])]) ].
Proof.
  destruct (viz_run_details E d0 s0)
    as (c1 & c2 & c3 & c4 & hp & lg & Hrun & _ & _ & _ & Hu).
  cbv zeta in Hrun. rewrite Hrun. exact Hu.
Qed.

(** ** What the figures show *)


(** X8. When the montage is assembled, each of the four figure files exists,
    whether the run has just rendered it or found it on disk: the panel
    figure holds the four images that are on disk at the end of the run, at
    the grid positions (0,0), (1,0), (0,1), (1,1), none of them missing.  The
    panels are loaded even when arc_cst_fig.png exists; that file is written
    from them only when it did not exist.  So a figure file left by an
    earlier run goes into the montage as it is, not as the current scene
    would render it. *)
Theorem montage_embeds_the_figure_files E d0 s0 :
  let w := run (Viz.notebook E) d0 s0 in
  let d1 := after_fetch E d0 in
  ∃ i1 i2 i3 i4,
    let panels := [(Some i1, 0, 0); (Some i2, 1, 0); (Some i3, 0, 1); (Some i4, 1, 1)] in
    disk w !! figure_path E "arc_cst1.png" = Some i1 ∧
    disk w !! figure_path E "arc_cst2.png" = Some i2 ∧
    disk w !! figure_path E "arc_cst3.png" = Some i3 ∧
    disk w !! figure_path E "arc_cst4.png" = Some i4 ∧
    last (heap w) = Some (OPanelFigure [3; 2; 6; 9] panels) ∧
    disk w !! figure_path E "arc_cst_fig.png" =
      after_guard (figure_path E "arc_cst_fig.png") (Montage panels) d1.
Proof.
  cbv zeta.
  destruct (viz_run_details E d0 s0) as (c1 & c2 & c3 & c4 & hp & lg & Hrun & Hlast & _).
  cbv zeta in Hrun, Hlast. rewrite Hrun. cbn [disk heap]. rewrite Hlast.
  destruct (panels_after_writes
              (figure_path E "arc_cst1.png") (figure_path E "arc_cst2.png")
              (figure_path E "arc_cst3.png") (figure_path E "arc_cst4.png")
              (figure_path E "arc_cst_fig.png") c1 c2 c3 c4
              (after_fetch E d0) (NoDup_figure_paths E))
    as (i1 & i2 & i3 & i4 & (K1 & K2 & K3 & K4) & H).
  cbv zeta in K1, K2, K3, K4, H.
  unfold montage_panels, read_file. rewrite K1, K2, K3, K4.
  exists i1, i2, i3, i4.
  destruct (H (Montage [(Some i1, 0, 0); (Some i2, 1, 0); (Some i3, 0, 1); (Some i4, 1, 1)]))
    as (H1 & H2 & H3 & H4 & H5).
  repeat split; assumption.
Qed.

(** ** Inputs and outputs on disk *)

Lemma last_char_app a b : b ≠ "" → last_char (a +:+ b) = last_char b.
Proof.
  intros Hb. induction a as [|c a IH]; [done|].
  change (String c a +:+ b) with (String c (a +:+ b)).
  destruct (a +:+ b) as [|c' r] eqn:Hab.
  - destruct a; [by cbn in Hab | discriminate Hab].
  - exact IH.
Qed.

Lemma last_char_op_join a b :
  startswith_sep b = false → b ≠ "" → last_char (op_join a b) = last_char b.
Proof.
  intros H Hb. rewrite op_join_relative by done.
  rewrite last_char_app; [by apply last_char_app|].
  destruct (if (if decide (a = "") then true else endswith_sep a) then "" else "/");
    [by destruct b | done].
Qed.

Lemma figure_path_last_char E p : p ∈ figure_paths E → last_char p = Some "g"%char.
Proof.
  intros Hp. apply elem_of_figure_paths in Hp.
  destruct Hp as [->|[->|[->|[->| ->]]]]; unfold figure_path;
    by rewrite last_char_op_join.
Qed.

(** X9. The visualisation notebook loads six files, all below the study
    directory the fetcher returned (the FA map, the two tractograms, the T1w
    image and the two waypoint ROIs), and none of them can be one of the
    figures it writes, wherever [afq_home] and the study directory are: the
    notebook cannot overwrite its own inputs. *)
Theorem figures_never_overwrite_inputs E d0 s0 :
  let w := run (Viz.notebook E) d0 s0 in
  loaded_paths (log w) = input_paths E ∧
  ∀ p, p ∈ loaded_paths (log w) → p ∉ figure_paths E.
Proof.
  cbv zeta.
  destruct (viz_run_details E d0 s0)
    as (c1 & c2 & c3 & c4 & hp & lg & Hrun & _ & _ & Hl & _).
  cbv zeta in Hrun. rewrite Hrun. cbn [log]. split; [exact Hl|].
  rewrite Hl. intros p Hp Hf. apply figure_path_last_char in Hf.
  unfold input_paths in Hp. rewrite !elem_of_cons, elem_of_nil in Hp.
  destruct Hp as [->|[->|[->|[->|[->|[->|[]]]]]]];
    rewrite last_char_op_join in Hf by done; discriminate Hf.
Qed.




(** ** Running the visualisation notebook again *)

Lemma write_if_preserves b p c (d : gmap string content) q :
  is_Some (d !! q) → is_Some (write_if b p c d !! q).
Proof.
  intros H. destruct b; [|done]. unfold write_if, write_file.
  destruct (decide (p = q)) as [->|Hne].
  - rewrite lookup_insert_eq. eauto.
  - by rewrite lookup_insert_ne.
Qed.

Lemma add_missing_present files (d : gmap string content) q :
  q ∈ files.*1 ∨ is_Some (d !! q) → is_Some (add_missing files d !! q).
Proof.
  unfold add_missing. intros H. rewrite lookup_union_is_Some.
  destruct (decide (is_Some (d !! q))) as [|Hn]; [by left|]. right.
  destruct H as [H|H]; [|done].
  destruct (list_to_map files !! q) eqn:Hl; [eauto|].
  by apply not_elem_of_list_to_map in Hl.
Qed.

Lemma add_missing_absorb files (d : gmap string content) :
  (∀ q, q ∈ files.*1 → is_Some (d !! q)) → add_missing files d = d.
Proof.
  intros H. unfold add_missing. apply map_eq. intros q.
  destruct (d !! q) as [c|] eqn:Hd.
  - by apply lookup_union_Some_l.
  - apply lookup_union_None. split; [done|].
    apply not_elem_of_list_to_map. intros Hq. apply H in Hq.
    rewrite Hd in Hq. by destruct Hq.
Qed.

Lemma figures_present_after_writes (p1 p2 p3 p4 p5 : string) c1 c2 c3 c4 c5
    (d1 : gmap string content) :
  NoDup [p1; p2; p3; p4; p5] →
  let d := write_if (negb (file_exists p5 d1)) p5 c5
          (write_if (negb (file_exists p4 d1)) p4 c4
          (write_if (negb (file_exists p3 d1)) p3 c3
          (write_if (negb (file_exists p2 d1)) p2 c2
          (write_if (negb (file_exists p1 d1)) p1 c1 d1)))) in
  (∀ q, is_Some (d1 !! q) → is_Some (d !! q)) ∧
  (∀ q, q ∈ [p1; p2; p3; p4; p5] → is_Some (d !! q)).
Proof.
  intros Hnd. cbv zeta. split.
  - intros q Hq. by do 5 apply write_if_preserves.
  - destruct (lookup_after_writes p1 p2 p3 p4 p5 c1 c2 c3 c4 c5 d1 Hnd)
      as [(H1 & H2 & H3 & H4 & H5) _].
    cbv zeta in H1, H2, H3, H4, H5.
    intros q Hq. rewrite !elem_of_cons, elem_of_nil in Hq.
    destruct Hq as [->|[->|[->|[->|[->|[]]]]]].
    + rewrite H1. apply after_guard_is_Some.
    + rewrite H2. apply after_guard_is_Some.
    + rewrite H3. apply after_guard_is_Some.
    + rewrite H4. apply after_guard_is_Some.
    + rewrite H5. apply after_guard_is_Some.
Qed.

(** on a disk that holds the dataset and all five figures *)
Lemma rerun_on_complete_disk E d s :
  after_fetch E d = d →
  (∀ p, p ∈ figure_paths E → is_Some (d !! p)) →
  saved_paths (log (run (Viz.notebook E) d s)) = [] ∧
  disk (run (Viz.notebook E) d s) = d.
Proof.
  intros Hf Hp.
  destruct (viz_run_summary E d s)
    as (c1 & c2 & c3 & c4 & c5 & hp & lg & Hrun & _ & Hs & _).
  cbv zeta in Hrun, Hs. rewrite Hf in Hrun, Hs.
  assert (H1 : file_exists (figure_path E "arc_cst1.png") d = true)
    by (apply file_exists_true, Hp, elem_of_figure_paths; tauto).
  assert (H2 : file_exists (figure_path E "arc_cst2.png") d = true)
    by (apply file_exists_true, Hp, elem_of_figure_paths; tauto).
  assert (H3 : file_exists (figure_path E "arc_cst3.png") d = true)
    by (apply file_exists_true, Hp, elem_of_figure_paths; tauto).
  assert (H4 : file_exists (figure_path E "arc_cst4.png") d = true)
    by (apply file_exists_true, Hp, elem_of_figure_paths; tauto).
  assert (H5 : file_exists (figure_path E "arc_cst_fig.png") d = true)
    by (apply file_exists_true, Hp, elem_of_figure_paths; tauto).
  rewrite H1, H2, H3, H4, H5 in Hrun, Hs.
  rewrite Hrun. cbn [log disk]. rewrite Hs.
  cbn [negb write_if saved_if app]. split; reflexivity.
Qed.

(** X11. Running the visualisation notebook a second time, on the disk the
    first run left and in a new kernel, renders and saves nothing and leaves
    the disk exactly as it was: after one run the dataset and all five
    figures are there, so every guard skips its call. *)
Theorem second_run_changes_nothing E d0 s0 s1 :
  let d := disk (run (Viz.notebook E) d0 s0) in
  let w := run (Viz.notebook E) d s1 in
  saved_paths (log w) = [] ∧ disk w = d.
Proof.
  cbv zeta.
  destruct (viz_run_summary E d0 s0)
    as (c1 & c2 & c3 & c4 & c5 & hp & lg & Hrun & _).
  cbv zeta in Hrun. rewrite Hrun. cbn [disk].
  destruct (figures_present_after_writes
              (figure_path E "arc_cst1.png") (figure_path E "arc_cst2.png")
              (figure_path E "arc_cst3.png") (figure_path E "arc_cst4.png")
              (figure_path E "arc_cst_fig.png") c1 c2 c3 c4 c5 (after_fetch E d0)
              (NoDup_figure_paths E)) as [Hold Hfig].
  cbv zeta in Hold, Hfig.
  set (d := write_if _ _ _ _) in *.
  apply rerun_on_complete_disk.
  - rewrite after_fetch_eq.
    rewrite (add_missing_absorb (hbn_preproc_files E ["NDARAA948VFH"]) d).
    + apply add_missing_absorb. intros q Hq. apply Hold.
      rewrite after_fetch_eq. apply add_missing_present. by left.
    + intros q Hq. apply Hold.
      rewrite after_fetch_eq. apply add_missing_present. right.
      apply add_missing_present. by left.
  - intros p Hp. apply Hfig. exact Hp.
Qed.

Example second_run_on_sample :
  saved_paths (log (run (Viz.notebook sample_env)
                      (disk (run (Viz.notebook sample_env) ∅ 0)) 1)) = [].
Proof. vm_compute. reflexivity. Qed.

(** ** Randomness in the RecoBundles notebook *)


